(** * aetheric-purity-research.py: the triple whose mean is closest to 7.0

    A shallow embedding of [src/Events/aetheric-purity-research.py] and the
    properties of its parser, range validator, combination selector and
    formatter.

    Python's [float] is IEEE 754 binary64.  It is modelled by the Standard
    Library's [spec_float] with [prec = 53] and [emax = 1024]: every
    operation below is the correctly rounded (nearest, ties to even) one and
    computes inside Rocq. *)

From Stdlib Require Import ZArith List String Ascii Bool Lia Permutation Sorted.
From Stdlib Require Import SpecFloat.
Import ListNotations.

Set Implicit Arguments.

(* ================================================================== *)
(** * Binary64 arithmetic *)
(* ================================================================== *)

Module Float64.

Definition prec : Z := 53.
Definition emax : Z := 1024.

Definition float : Type := spec_float.

Definition add : float -> float -> float := SFadd prec emax.
Definition sub : float -> float -> float := SFsub prec emax.
Definition mul : float -> float -> float := SFmul prec emax.
Definition div : float -> float -> float := SFdiv prec emax.
Definition abs : float -> float := SFabs.

(** [x == y], [x < y] and [x <= y]; all three are [false] when an operand
    is NaN, and [0.0 == -0.0]. *)
Definition eqb : float -> float -> bool := SFeqb.
Definition ltb : float -> float -> bool := SFltb.
Definition leb : float -> float -> bool := SFleb.

Definition is_nan (x : float) : bool :=
  match x with S754_nan => true | _ => false end.

Definition is_finite (x : float) : bool :=
  match x with S754_zero _ | S754_finite _ _ _ => true | _ => false end.

Definition zero : float := S754_zero false.
Definition infinity : float := S754_infinity false.
Definition nan : float := S754_nan.

(** The double nearest to the integer [n]; an infinity when [n] is out of
    range. *)
Definition of_Z (n : Z) : float := binary_normalize prec emax n 0 false.

(** The double nearest to the rational [n / d]: the value of a decimal
    literal whose digits are [n] and whose scale is [d = 10^k].  The
    quotient is formed on the exact integers, so there is one rounding. *)
Definition ratio (n : Z) (d : positive) : float :=
  match n with
  | Z0 => zero
  | Zpos m => div (S754_finite false m 0) (S754_finite false d 0)
  | Zneg m => div (S754_finite true m 0) (S754_finite false d 0)
  end.

(** The value of a finite double as the integer pair [(m, e)] standing for
    [m * 2^e]. *)
Definition mantissa_exponent (x : float) : option (Z * Z) :=
  match x with
  | S754_zero _ => Some (0, 0)%Z
  | S754_finite s m e => Some (cond_Zopp s (Zpos m), e)
  | _ => None
  end.

End Float64.

Import Float64.

Declare Scope float64_scope.
Delimit Scope float64_scope with f64.
Infix "+" := add : float64_scope.
Infix "-" := sub : float64_scope.
Infix "*" := mul : float64_scope.
Infix "/" := div : float64_scope.
Infix "==" := eqb (at level 70, no associativity) : float64_scope.
Infix "<?" := ltb : float64_scope.
Infix "<=?" := leb : float64_scope.

(* ================================================================== *)
(** * The Python built-ins the script calls *)
(* ================================================================== *)

(** Exceptions that the built-ins used by the script can raise. *)
Inductive exn : Type :=
| CannotConvertString (s : string)
    (** [ValueError: could not convert string to float: repr(s)] *)
| CannotConvertInfinity
    (** [OverflowError: cannot convert float infinity to integer] *)
| CannotConvertNaN
    (** [ValueError: cannot convert float NaN to integer] *)
| IntTooLarge
    (** [OverflowError: int too large to convert to float] *)
| NotARealNumber
    (** [TypeError: float() argument must be a string or a real number] *)
| NoneNotIterable
    (** [TypeError: 'NoneType' object is not iterable] *)
| CannotUnpack
    (** [ValueError]: the right-hand side of [a, b, c = ...] has not three items *)
| DecodeError (msg : string).
    (** whatever [json.loads] raises *)

(** A computation that returns or raises. *)
Definition result (A : Type) : Type := (exn + A)%type.

Module Str.

(** ** [str.strip], [str.startswith], [str.endswith]

    A [string] stands for the Python [str] with the same code points,
    all below 256; texts with a code point above 255 are outside the
    model.  The whitespace of [str.strip] in that range: tab, line feed,
    vertical tab, form feed, carriage return, the separators 28 to 31,
    the space, the next-line control 133 and the no-break space 160. *)

Definition is_space (c : ascii) : bool :=
  let n := nat_of_ascii c in
  ((9 <=? n) && (n <=? 13)) || ((28 <=? n) && (n <=? 32)) ||
  (n =? 133) || (n =? 160).

Fixpoint lstrip (cs : list ascii) : list ascii :=
  match cs with
  | c :: cs' => if is_space c then lstrip cs' else cs
  | [] => []
  end.

Definition rstrip (cs : list ascii) : list ascii := rev (lstrip (rev cs)).

Definition strip_chars (cs : list ascii) : list ascii := rstrip (lstrip cs).

Definition strip (s : string) : string :=
  string_of_list_ascii (strip_chars (list_ascii_of_string s)).

Definition startswith (s : string) (c : ascii) : bool :=
  match s with
  | String c' _ => Ascii.eqb c' c
  | EmptyString => false
  end.

Definition endswith (s : string) (c : ascii) : bool :=
  match rev (list_ascii_of_string s) with
  | c' :: _ => Ascii.eqb c' c
  | [] => false
  end.

End Str.

Module PyFloat.

(** ** [float(s)] for a string [s]

    The grammar of the language reference:
<<
    floatvalue  ::= [sign] (floatnumber | infinity | nan)
    floatnumber ::= number [exponent]
    number      ::= [digitpart] "." digitpart | digitpart ["."]
    exponent    ::= ("e" | "E") [sign] digitpart
    digitpart   ::= digit (["_"] digit)*
>>
    with surrounding whitespace removed, [inf], [infinity] and [nan] in any
    letter case, and the result rounded correctly to the nearest double.
    Below code point 256 the decimal digits are the ASCII digits. *)

(** The whitespace that [float] skips around the text: tab, line feed,
    vertical tab, form feed, carriage return and the space, and the two
    whitespace characters above 127, which [float] first turns into
    spaces: the next-line control 133 and the no-break space 160.  The
    separators 28 to 31, which [str.strip] removes, are not skipped. *)
Definition is_space (c : ascii) : bool :=
  let n := nat_of_ascii c in
  ((9 <=? n) && (n <=? 13)) || (n =? 32) || (n =? 133) || (n =? 160).

Fixpoint lstrip (cs : list ascii) : list ascii :=
  match cs with
  | c :: cs' => if is_space c then lstrip cs' else cs
  | [] => []
  end.

Definition strip_chars (cs : list ascii) : list ascii :=
  rev (lstrip (rev (lstrip cs))).

Definition is_digit (c : ascii) : bool :=
  let n := nat_of_ascii c in (48 <=? n) && (n <=? 57).

Definition digit_value (c : ascii) : Z := Z.of_nat (nat_of_ascii c) - 48.

Definition lower (c : ascii) : ascii :=
  let n := nat_of_ascii c in
  if (65 <=? n) && (n <=? 90) then ascii_of_nat (n + 32) else c.

(** An underscore is accepted only between two digits. *)
Fixpoint underscores_ok (prev : option ascii) (cs : list ascii) : bool :=
  match cs with
  | [] => match prev with Some "_"%char => false | _ => true end
  | c :: cs' =>
      let after_digit := match prev with Some p => is_digit p | None => false end in
      let after_underscore := match prev with Some "_"%char => true | _ => false end in
      (if Ascii.eqb c "_" then after_digit
       else negb after_underscore || is_digit c)
      && underscores_ok (Some c) cs'
  end.

Definition remove_underscores (cs : list ascii) : list ascii :=
  filter (fun c => negb (Ascii.eqb c "_")) cs.

(** The longest prefix of digits and what follows it. *)
Fixpoint span_digits (cs : list ascii) : list ascii * list ascii :=
  match cs with
  | c :: cs' =>
      if is_digit c
      then let '(ds, rest) := span_digits cs' in (c :: ds, rest)
      else ([], cs)
  | [] => ([], [])
  end.

Definition digits_value (ds : list ascii) : Z :=
  fold_left (fun acc d => 10 * acc + digit_value d)%Z ds 0%Z.

Definition split_sign (cs : list ascii) : bool * list ascii :=
  match cs with
  | "-"%char :: cs' => (true, cs')
  | "+"%char :: cs' => (false, cs')
  | _ => (false, cs)
  end.

(** [exponent]: absent, or [e], an optional sign and at least one digit,
    up to the end of the text. *)
Definition parse_exponent (cs : list ascii) : option Z :=
  match cs with
  | [] => Some 0%Z
  | c :: cs' =>
      if Ascii.eqb (lower c) "e" then
        let '(neg, ds) := split_sign cs' in
        match span_digits ds with
        | ((_ :: _) as es, []) =>
            Some (if neg then - digits_value es else digits_value es)%Z
        | _ => None
        end
      else None
  end.

(** The double nearest to [(-1)^neg * digits * 10^e10]. *)
Definition scale10 (neg : bool) (digits e10 : Z) : float :=
  let n := if neg then (- digits)%Z else digits in
  match digits with
  | Z0 => S754_zero neg
  | _ =>
      match e10 with
      | Zneg k => ratio n (10 ^ k)
      | _ => ratio (n * 10 ^ e10) 1
      end
  end.

Definition parse_number (neg : bool) (cs : list ascii) : option float :=
  let '(ip, rest) := span_digits cs in
  let '(fp, rest') :=
    match rest with
    | "."%char :: r => span_digits r
    | _ => ([], rest)
    end in
  match ip ++ fp with
  | [] => None
  | ds =>
      match parse_exponent rest' with
      | Some e =>
          Some (scale10 neg (digits_value ds) (e - Z.of_nat (List.length fp)))
      | None => None
      end
  end.

Definition parse_inf_or_nan (neg : bool) (cs : list ascii) : option float :=
  let word := string_of_list_ascii (map lower cs) in
  if (String.eqb word "inf" || String.eqb word "infinity")%bool
  then Some (S754_infinity neg)
  else if String.eqb word "nan" then Some S754_nan
  else None.

Definition of_chars (cs : list ascii) : option float :=
  let '(neg, body) := split_sign cs in
  match parse_inf_or_nan neg body with
  | Some x => Some x
  | None => parse_number neg body
  end.

Definition of_string (s : string) : option float :=
  let cs := strip_chars (list_ascii_of_string s) in
  if underscores_ok None cs then of_chars (remove_underscores cs) else None.

(** [float(s)]: the value, or [ValueError]. *)
Definition float_of_str (s : string) : result float :=
  match of_string s with
  | Some x => inr x
  | None => inl (CannotConvertString s)
  end.

(** [float(n)] for an [int]: [OverflowError] beyond the largest double. *)
Definition float_of_int (n : Z) : result float :=
  let x := of_Z n in
  if is_finite x then inr x else inl IntTooLarge.

End PyFloat.

Module PyMath.

(** ** [math.ceil]

    The least integer not below [x], exactly; it raises on an infinity and
    on NaN. *)
Definition ceil (x : float) : result Z :=
  match x with
  | S754_nan => inl CannotConvertNaN
  | S754_infinity _ => inl CannotConvertInfinity
  | S754_zero _ => inr 0%Z
  | S754_finite s m e =>
      let n := cond_Zopp s (Zpos m) in
      inr (match e with
           | Zneg k => - ((- n) / 2 ^ Zpos k)
           | _ => n * 2 ^ e
           end)%Z
  end.

End PyMath.

Module PySum.

(** ** [sum]

    [sum] starts from the integer [0], so the first addition is
    [0.0 + x].  CPython before 3.12 then adds from left to right; from 3.12
    on it carries Neumaier's compensation term and adds it at the end when
    it is finite and not zero.  Both are modelled. *)
Inductive algorithm : Type := LeftToRight | Compensated.

Definition neumaier (st : float * float) (x : float) : float * float :=
  let '(f, c) := st in
  let t := (f + x)%f64 in
  if (abs x <=? abs f)%f64
  then (t, (c + ((f - t) + x))%f64)
  else (t, (c + ((x - t) + f))%f64).

Definition sum (alg : algorithm) (xs : list float) : float :=
  match alg with
  | LeftToRight => fold_left add xs zero
  | Compensated =>
      match xs with
      | [] => zero
      | x :: rest =>
          let '(f, c) := fold_left neumaier rest ((zero + x)%f64, zero) in
          match c with
          | S754_finite _ _ _ => (f + c)%f64
          | _ => f
          end
      end
  end.

End PySum.

Module PySeq.

(** ** [sorted] on floats

    List sorting compares with [<] only and is stable: an element goes
    after the elements it is not smaller than.  (Where an item is NaN
    the order Python leaves the items in depends on its algorithm; the
    script never looks at it, see [nan_key_never_smaller].) *)
Fixpoint insert (x : float) (l : list float) : list float :=
  match l with
  | [] => [x]
  | y :: l' => if (x <? y)%f64 then x :: l else y :: insert x l'
  end.

Definition sorted (l : list float) : list float :=
  fold_left (fun acc x => insert x acc) l [].

(** ** [<] on tuples of floats

    The first position where the items are not [==] decides; a proper
    prefix is smaller. *)
Fixpoint tuple_lt (a b : list float) : bool :=
  match a, b with
  | x :: a', y :: b' => if (x == y)%f64 then tuple_lt a' b' else (x <? y)%f64
  | [], _ :: _ => true
  | _, [] => false
  end.

(** ** [itertools.combinations]

    The [r]-element subsequences, in the lexicographic order of their
    positions. *)
Fixpoint combinations {A : Type} (l : list A) (r : nat) : list (list A) :=
  match r with
  | O => [[]]
  | S r' =>
      match l with
      | [] => []
      | x :: l' => map (cons x) (combinations l' r') ++ combinations l' r
      end
  end.

(** A list comprehension whose body can raise: the first exception ends it. *)
Fixpoint comprehension {A B : Type} (f : A -> result B) (l : list A)
  : result (list B) :=
  match l with
  | [] => inr []
  | a :: l' =>
      match f a with
      | inl e => inl e
      | inr b =>
          match comprehension f l' with
          | inl e => inl e
          | inr bs => inr (b :: bs)
          end
      end
  end.

End PySeq.

(* ================================================================== *)
(** * The process: standard output, standard error, exit status *)
(* ================================================================== *)

(** A printed line is kept as the text of its f-string together with the
    values of its replacement fields, in order. *)
Inductive field : Type :=
| FInt (n : Z)
| FFloat (x : float)
| FFloats (xs : list float)
| FExn (e : exn).

Record line : Type := Line { template : string; fields : list field }.

Record console : Type := Console { stdout : list line; stderr : list line }.

Inductive signal (A : Type) : Type :=
| Return (a : A)
| Exit (code : Z).
Arguments Exit {A} code.

(** A statement sequence: it writes to the console and either goes on with
    a value or ends the process. *)
Definition prog (A : Type) : Type := console -> signal A * console.

Definition ret {A : Type} (a : A) : prog A := fun c => (Return a, c).

Definition bind {A B : Type} (m : prog A) (k : A -> prog B) : prog B :=
  fun c =>
    match m c with
    | (Return a, c') => k a c'
    | (Exit n, c') => (Exit n, c')
    end.

Notation "x <- m ;; k" := (bind m (fun x => k))
  (at level 61, m at next level, right associativity).
Notation "m ;;; k" := (bind m (fun _ => k))
  (at level 61, right associativity).

(** [print(...)] *)
Definition print (l : line) : prog unit :=
  fun c => (Return tt, Console (stdout c ++ [l]) (stderr c)).

(** [print(..., file=sys.stderr)] *)
Definition eprint (l : line) : prog unit :=
  fun c => (Return tt, Console (stdout c) (stderr c ++ [l])).

(** [sys.exit(message)]: the message goes to standard error, status 1. *)
Definition sys_exit {A : Type} (l : line) : prog A :=
  fun c => (Exit 1, Console (stdout c) (stderr c ++ [l])).

(** An exception nobody catches: the traceback goes to standard error,
    status 1. *)
Definition traceback (e : exn) : line :=
  Line "Traceback (most recent call last): {e}" [FExn e].

Definition uncaught {A : Type} (r : result A) : prog A :=
  match r with
  | inr a => ret a
  | inl e => fun c => (Exit 1, Console (stdout c) (stderr c ++ [traceback e]))
  end.

(** What the operating system sees of a run. *)
Record outcome : Type :=
  Outcome { status : Z; out : list line; err : list line }.

Definition run (p : prog unit) : outcome :=
  match p (Console [] []) with
  | (Return _, c) => Outcome 0 (stdout c) (stderr c)
  | (Exit n, c) => Outcome n (stdout c) (stderr c)
  end.

(* ================================================================== *)
(** * The script *)
(* ================================================================== *)

(** What [json.loads] can return inside an array. *)
#[local] Unset Elimination Schemes.
Inductive json : Type :=
| JNull
| JBool (b : bool)
| JInt (n : Z)
| JFloat (x : float)
| JString (s : string)
| JArray (items : list json)
| JObject (members : list (string * json)).
#[local] Set Elimination Schemes.

(** [float(v)] for a decoded JSON value. *)
Definition float_of_json (v : json) : result float :=
  match v with
  | JFloat x => inr x
  | JInt n => PyFloat.float_of_int n
  | JBool b => inr (of_Z (if b then 1 else 0))
  | JString s => PyFloat.float_of_str s
  | JNull | JArray _ | JObject _ => inl NotARealNumber
  end.

Definition TARGET_MEAN : float := of_Z 7.
Definition K : nat := 3.
(** [K] where Python converts it to a float. *)
Definition K_float : float := of_Z (Z.of_nat K).
Definition TARGET_SUM : float := (TARGET_MEAN * K_float)%f64.

Definition thousand : float := of_Z 1000.

(** [math.ceil(x * 1000.0) / 1000.0]; the quotient of an [int] by a float
    converts the [int] first. *)
Definition ceil_to_thousandth (x : float) : result float :=
  match PyMath.ceil (x * thousand)%f64 with
  | inl e => inl e
  | inr n =>
      match PyFloat.float_of_int n with
      | inl e => inl e
      | inr y => inr (y / thousand)%f64
      end
  end.

(** The bounds of the range check, [0.001] and [14.0]. *)
Definition RANGE_LOW : float := ratio 1 1000.
Definition RANGE_HIGH : float := of_Z 14.

Definition in_range (v : float) : bool :=
  ((RANGE_LOW <=? v) && (v <=? RANGE_HIGH))%f64.

Definition warning_template : string :=
  "Warning: these values are outside the 1.0–14.0 range: {bad}".

Definition warn_out_of_range (values : list float) : prog unit :=
  let bad := filter (fun v => negb (in_range v)) values in
  match bad with
  | [] => ret tt
  | _ => eprint (Line warning_template [FFloats bad])
  end.

Definition usage_message : line :=
  Line "Provide at least 3 values. Example: python find_best_mean7.py 1.356 7.522 5.498" [].

Definition json_error_template : string := "Could not parse JSON array: {e}".

Definition number_error_template : string :=
  "All inputs must be numbers (or a JSON array of numbers): {e}".

Definition too_few_template : string :=
  "Need at least {K} values, got {len(values)}.".

Definition triple_template : string := "Best triple: ({a}, {b}, {c})".
Definition mean_template : string := "Exact mean: {mean:.12f}".
Definition ceiled_template : string :=
  "Mean rounded UP to nearest thousandth: {mean_ceiled:.3f}".

(** The selection key: [(diff, abs(s - TARGET_SUM), tuple(sorted(comb)))]. *)
Definition key : Type := (float * float * list float)%type.

(** [key < best_key]: the first component that is not [==] decides.
    (Python takes items that are the same object as equal without calling
    [==]; only the items of the sorted tuples are shared objects, and they
    are reached only past two components that are [==], hence not NaN, so
    that no item is NaN either.) *)
Definition key_lt (k1 k2 : key) : bool :=
  let '(d1, s1, t1) := k1 in
  let '(d2, s2, t2) := k2 in
  if (d1 == d2)%f64
  then if (s1 == s2)%f64 then PySeq.tuple_lt t1 t2 else (s1 <? s2)%f64
  else (d1 <? d2)%f64.

Section Script.

(** [json.loads] on a text that opens and closes with a bracket: the items
    of the array, or an exception.  The decoder is the standard library's;
    the script is verified for every decoder. *)
Variable json_loads : string -> result (list json).

(** The summation algorithm of the interpreter. *)
Variable summation : PySum.algorithm.

Definition key_of (comb : list float) : key :=
  let s := PySum.sum summation comb in
  let mean := (s / K_float)%f64 in
  let diff := abs (mean - TARGET_MEAN)%f64 in
  (diff, abs (s - TARGET_SUM)%f64, PySeq.sorted comb).

Definition parse_tokens (argv : list string) : prog (list float) :=
  match PySeq.comprehension PyFloat.float_of_str argv with
  | inr values => ret values
  | inl e => sys_exit (Line number_error_template [FExn e])
  end.

Definition parse_json (s : string) : prog (list float) :=
  match
    match json_loads s with
    | inl e => inl e
    | inr vals => PySeq.comprehension float_of_json vals
    end
  with
  | inr values => ret values
  | inl e => sys_exit (Line json_error_template [FExn e])
  end.

Definition parse_values (argv : list string) : prog (list float) :=
  if Nat.eqb (List.length argv) 1 then
    let s := Str.strip (hd EmptyString argv) in
    if Str.startswith s "[" && Str.endswith s "]"
    then parse_json s
    else parse_tokens argv
  else parse_tokens argv.

(** One pass of the [for] loop over the combinations: the state is
    [(best_comb, best_key)], [None] before the first pass. *)
Definition consider (best : option (list float * key)) (comb : list float)
  : option (list float * key) :=
  let k := key_of comb in
  match best with
  | None => Some (comb, k)
  | Some (_, best_key) => if key_lt k best_key then Some (comb, k) else best
  end.

Definition search (values : list float) : option (list float * key) :=
  fold_left consider (PySeq.combinations values K) None.

Definition best_comb (values : list float) : option (list float) :=
  option_map fst (search values).

(** Lines 70 to 77: the means of the winner and the report. *)
Definition report (best : option (list float)) : prog unit :=
  comb <- uncaught (match best with
                    | Some comb => inr comb
                    | None => inl NoneNotIterable
                    end) ;;
  let s := PySum.sum summation comb in
  let mean := (s / K_float)%f64 in
  mean_ceiled <- uncaught (ceil_to_thousandth mean) ;;
  match comb with
  | [a; b; c] =>
      print (Line triple_template [FFloat a; FFloat b; FFloat c]) ;;;
      print (Line mean_template [FFloat mean]) ;;;
      print (Line ceiled_template [FFloat mean_ceiled])
  | _ => uncaught (inl CannotUnpack)
  end.

(** Lines 51 to 55: parsing, the range warning and the count check. *)
Definition checked_values (argv : list string) : prog (list float) :=
  values <- parse_values argv ;;
  warn_out_of_range values ;;;
  if List.length values <? K
  then sys_exit (Line too_few_template
                      [FInt (Z.of_nat K); FInt (Z.of_nat (List.length values))])
  else ret values.

(** Lines 51 to 77: everything after the argument-count guard. *)
Definition process (argv : list string) : prog unit :=
  values <- checked_values argv ;;
  report (best_comb values).

(** [main()], with [sys.argv] as its argument. *)
Definition main (sys_argv : list string) : prog unit :=
  if List.length sys_argv <? 4 then sys_exit usage_message
  else process (skipn 1 sys_argv).

End Script.

Module JsonNumbers.

(** ** A decoder for arrays of numbers

    [json.loads] restricted to the input form of the usage line: an array
    whose items are number literals (an optional minus sign, an integer
    part without leading zeros, an optional fraction and an optional
    exponent; an [int] without fraction and exponent, a [float] otherwise)
    or one of the constants [true], [false], [null], [NaN], [Infinity]
    and [-Infinity].  Arrays with strings, arrays or objects as items are
    outside its domain and are rejected.  It instantiates the decoder in
    the closed examples. *)

Definition is_ws (c : ascii) : bool :=
  let n := nat_of_ascii c in
  (n =? 32) || (n =? 9) || (n =? 10) || (n =? 13).

Fixpoint skip_ws (cs : list ascii) : list ascii :=
  match cs with
  | c :: cs' => if is_ws c then skip_ws cs' else cs
  | [] => []
  end.

Definition trim (cs : list ascii) : list ascii :=
  rev (skip_ws (rev (skip_ws cs))).

(** The items between commas; [cur] holds the current item reversed. *)
Fixpoint split_commas (cs cur : list ascii) : list (list ascii) :=
  match cs with
  | [] => [rev cur]
  | c :: cs' =>
      if Ascii.eqb c ","
      then rev cur :: split_commas cs' []
      else split_commas cs' (c :: cur)
  end.

Definition integer_part_ok (ds : list ascii) : bool :=
  match ds with
  | [] => false
  | ["0"%char] => true
  | d :: _ => negb (Ascii.eqb d "0")
  end.

Definition number (cs : list ascii) : option json :=
  let '(neg, body) :=
    match cs with
    | "-"%char :: r => (true, r)
    | _ => (false, cs)
    end in
  let '(ip, rest) := PyFloat.span_digits body in
  if integer_part_ok ip then
    match rest with
    | [] =>
        let n := PyFloat.digits_value ip in
        Some (JInt (if neg then - n else n))
    | "."%char :: r =>
        match PyFloat.span_digits r with
        | ([], _) => None
        | (_, _) => option_map JFloat (PyFloat.of_chars cs)
        end
    | _ => option_map JFloat (PyFloat.of_chars cs)
    end
  else None.

Definition item (cs : list ascii) : option json :=
  let word := string_of_list_ascii cs in
  if String.eqb word "true" then Some (JBool true)
  else if String.eqb word "false" then Some (JBool false)
  else if String.eqb word "null" then Some JNull
  else if String.eqb word "NaN" then Some (JFloat nan)
  else if String.eqb word "Infinity" then Some (JFloat (S754_infinity false))
  else if String.eqb word "-Infinity" then Some (JFloat (S754_infinity true))
  else number cs.

Fixpoint items (l : list (list ascii)) : option (list json) :=
  match l with
  | [] => Some []
  | cs :: l' =>
      match item (trim cs), items l' with
      | Some v, Some vs => Some (v :: vs)
      | _, _ => None
      end
  end.

Definition loads (s : string) : result (list json) :=
  let failed := inl (DecodeError "not a JSON array of numbers") in
  match trim (list_ascii_of_string s) with
  | "["%char :: cs =>
      match rev cs with
      | "]"%char :: body =>
          match skip_ws body with
          | [] => inr []
          | _ =>
              match items (split_commas (rev body) []) with
              | Some vs => inr vs
              | None => failed
              end
          end
      | _ => failed
      end
  | _ => failed
  end.

End JsonNumbers.

(* ================================================================== *)
(** * The vocabulary of the properties *)
(* ================================================================== *)

(** The file name the examples give to [sys.argv[0]]. *)
Definition script : string := "aetheric-purity-research.py".

(** The condition of lines 28 to 30: the single-JSON-array form. *)
Definition json_form (argv : list string) : bool :=
  Nat.eqb (List.length argv) 1 &&
  (let s := Str.strip (hd EmptyString argv) in
   Str.startswith s "[" && Str.endswith s "]").

(** Some line of [ls] is an instance of the f-string [t]. *)
Definition printed (t : string) (ls : list line) : bool :=
  existsb (fun l => String.eqb (template l) t) ls.

(** The lines that [warn_out_of_range] adds to standard error. *)
Definition warning_lines (values : list float) : list line :=
  if existsb (fun v => negb (in_range v)) values
  then [Line warning_template
             [FFloats (filter (fun v => negb (in_range v)) values)]]
  else [].

(** The script with line 52, the call of the validator, taken out; runs of
    the script are compared with runs of this one. *)
Definition main_without_validator
           (json_loads : string -> result (list json))
           (summation : PySum.algorithm) (sys_argv : list string) : prog unit :=
  if List.length sys_argv <? 4 then sys_exit usage_message
  else
    values <- parse_values json_loads (skipn 1 sys_argv) ;;
    if List.length values <? K
    then sys_exit (Line too_few_template
                        [FInt (Z.of_nat K); FInt (Z.of_nat (List.length values))])
    else report summation (best_comb summation values).

(** [k] is the least integer not below the finite double [x = m * 2^e]. *)
Definition least_integer_at_least (k : Z) (x : float) : Prop :=
  match mantissa_exponent x with
  | Some (m, e) =>
      ((k - 1) * 2 ^ Z.max 0 (- e) < m * 2 ^ Z.max 0 e <= k * 2 ^ Z.max 0 (- e))%Z
  | None => False
  end.

(** The literals of the three documented examples and of the value that
    is rounded down. *)
Definition lit_6_9999999 : float := ratio 69999999 10000000.
Definition lit_7_0001 : float := ratio 70001 10000.
Definition lit_7_001 : float := ratio 7001 1000.
Definition lit_0_129 : float := ratio 129 1000.
Definition lit_0_043 : float := ratio 43 1000.
Definition lit_0_043000000000000003 : float :=
  ratio 43000000000000003 1000000000000000000.

(** The literal [1e308]: three of them add up to an infinity. *)
Definition lit_1e308 : float := ratio (10 ^ 308) 1.

(** Scenario 2's values. *)
Definition scenario_2_values : list float :=
  [ratio 1356 1000; ratio 7522 1000; ratio 5498 1000; ratio 91 10; of_Z 2].

(** The comparisons of doubles follow the lexicographic order of a rank:
    the negative infinity, the negative finite doubles (larger exponent
    and mantissa first), the zeros, the positive finite doubles, the
    positive infinity.  NaN has no rank. *)
Definition rank (x : float) : option (Z * Z * Z) :=
  match x with
  | S754_nan => None
  | S754_infinity true => Some (-2, 0, 0)%Z
  | S754_finite true m e => Some (-1, - e, Z.neg m)%Z
  | S754_zero _ => Some (0, 0, 0)%Z
  | S754_finite false m e => Some (1, e, Z.pos m)%Z
  | S754_infinity false => Some (2, 0, 0)%Z
  end.

(** The lexicographic order of ranks. *)
Definition lex_lt (p q : Z * Z * Z) : Prop :=
  let '(a, b, c) := p in
  let '(a', b', c') := q in
  (a < a' \/ (a = a' /\ (b < b' \/ (b = b' /\ c < c'))))%Z.

(** A finite double other than [-0.0]. *)
Definition ordinary (x : float) : bool :=
  match x with
  | S754_zero false | S754_finite _ _ _ => true
  | _ => false
  end.

(** The same double, constructor by constructor. *)
Definition same (x y : float) : bool :=
  match x, y with
  | S754_zero s, S754_zero s' => Bool.eqb s s'
  | S754_infinity s, S754_infinity s' => Bool.eqb s s'
  | S754_nan, S754_nan => true
  | S754_finite s m e, S754_finite s' m' e' =>
      Bool.eqb s s' && Pos.eqb m m' && Z.eqb e e'
  | _, _ => false
  end.

(** A key compares as the tuple of its three components, the last one
    flattened: Python decides at the first component that is not [==]. *)
Definition key_tuple (k : key) : list float :=
  let '(d, s, t) := k in d :: s :: t.

(** The binomial coefficient, by Pascal's rule. *)
Fixpoint choose (n r : nat) : nat :=
  match r with
  | O => 1
  | S r' =>
      match n with
      | O => 0
      | S n' => choose n' r' + choose n' r
      end
  end.

(** [c] keeps some of the items of [l], in their order. *)
Inductive subseq {A : Type} : list A -> list A -> Prop :=
| subseq_nil : subseq [] []
| subseq_take (x : A) (c l : list A) : subseq c l -> subseq (x :: c) (x :: l)
| subseq_skip (x : A) (c l : list A) : subseq c l -> subseq c (x :: l).

(** The six orders of three items. *)
Definition orders {A : Type} (c : list A) : list (list A) :=
  match c with
  | [x; y; z] =>
      [[x; y; z]; [x; z; y]; [y; x; z]; [y; z; x]; [z; x; y]; [z; y; x]]
  | _ => []
  end.

(** The loop invariant: after the combinations [seen], the state holds one
    of them with its key, and none of them has a smaller key. *)
Definition best_so_far (summation : PySum.algorithm)
           (seen : list (list float))
           (st : option (list float * key)) : Prop :=
  match st with
  | None => seen = []
  | Some (bc, bk) =>
      bk = key_of summation bc /\ In bc seen /\
      forall c, In c seen -> key_lt (key_of summation c) bk = false
  end.

(** The three-element sums of [values] do not depend on the order in
    which the three values are added. *)
Definition sum_order_free (summation : PySum.algorithm)
           (values : list float) : Prop :=
  forall c c', subseq c values -> List.length c = 3 -> Permutation c c' ->
               PySum.sum summation c' = PySum.sum summation c.

(** The same, checked by running the six orders of every combination. *)
Definition sum_order_free_b (summation : PySum.algorithm)
           (values : list float) : bool :=
  forallb (fun c =>
             forallb (fun c' => same (PySum.sum summation c')
                                     (PySum.sum summation c))
                     (orders c))
          (PySeq.combinations values 3).

(** A key without NaN: its two distances and the three sorted values. *)
Definition nan_free (k : key) : Prop :=
  Forall (fun x => is_nan x = false) (key_tuple k) /\
  List.length (key_tuple k) = 5.

(** The loop invariant for ties: the state holds the first of the
    combinations [seen] that none of them beats; the ones before it have a
    larger key. *)
Definition first_best (summation : PySum.algorithm)
           (seen : list (list float))
           (st : option (list float * key)) : Prop :=
  match st with
  | None => seen = []
  | Some (bc, bk) =>
      bk = key_of summation bc /\
      exists before after,
        seen = before ++ bc :: after /\
        (forall c, In c before ->
                   key_lt (key_of summation bc) (key_of summation c) = true) /\
        (forall c, In c after ->
                   key_lt (key_of summation c) (key_of summation bc) = false)
  end.

(* ================================================================== *)
(** * Properties *)
(* ================================================================== *)

(** ** The built-ins on examples *)

Example float_of_str_examples :
  map PyFloat.of_string
      ["1.0"; " 7.0 "; "1e3"; ".5"; "5."; "1_000"; "-inf"; "NaN";
       "abc"; ""; "1e"; "1__0"; "[1.0"; "0x10"; "1 2"]%string =
  [Some (of_Z 1); Some (of_Z 7); Some (of_Z 1000); Some (ratio 1 2);
   Some (of_Z 5); Some (of_Z 1000); Some (S754_infinity true); Some nan;
   None; None; None; None; None; None; None].
Proof. vm_compute. reflexivity. Qed.

(** [str.strip] removes the separator 31, [float] does not skip it; both
    remove the vertical tab and the no-break space. *)
Example whitespace_examples :
  let us := String (ascii_of_nat 31) "1.0" in
  let vt := String (ascii_of_nat 11) "1.0" in
  let nbsp := String (ascii_of_nat 160) "1.5" in
  Str.strip us = "1.0"%string /\ PyFloat.of_string us = None /\
  Str.strip vt = "1.0"%string /\ PyFloat.of_string vt = Some (of_Z 1) /\
  Str.strip nbsp = "1.5"%string /\ PyFloat.of_string nbsp = Some (ratio 3 2).
Proof. vm_compute. repeat split. Qed.

Example ceil_examples :
  map PyMath.ceil [ratio 5 2; ratio (-5) 2; ratio (-1) 2; of_Z 3; zero;
                   infinity; nan] =
  [inr 3%Z; inr (-2)%Z; inr 0%Z; inr 3%Z; inr 0%Z;
   inl CannotConvertInfinity; inl CannotConvertNaN].
Proof. vm_compute. reflexivity. Qed.

Example combinations_example :
  PySeq.combinations [1; 2; 3; 4] 3 = [[1; 2; 3]; [1; 2; 4]; [1; 3; 4]; [2; 3; 4]].
Proof. reflexivity. Qed.

Example sorted_example :
  PySeq.sorted [of_Z 13; of_Z 1; of_Z 7] = [of_Z 1; of_Z 7; of_Z 13].
Proof. vm_compute. reflexivity. Qed.

Example tuple_lt_examples :
  PySeq.tuple_lt [of_Z 1; of_Z 2] [of_Z 1; of_Z 3] = true /\
  PySeq.tuple_lt [of_Z 1; of_Z 3] [of_Z 1; of_Z 2] = false /\
  PySeq.tuple_lt [zero; of_Z 1] [S754_zero true; of_Z 2] = true /\
  PySeq.tuple_lt [nan; of_Z 1] [of_Z 5; of_Z 2] = false /\
  PySeq.tuple_lt [of_Z 5; of_Z 2] [nan; of_Z 1] = false.
Proof. vm_compute. repeat split. Qed.

(** The two summation algorithms differ on [0.1 + 0.2 + 0.3]. *)
Example sum_examples :
  PySum.sum PySum.LeftToRight [ratio 1 10; ratio 2 10; ratio 3 10]
  = S754_finite false 5404319552844596 (-53) /\
  PySum.sum PySum.Compensated [ratio 1 10; ratio 2 10; ratio 3 10]
  = ratio 6 10 /\
  ratio 6 10 = S754_finite false 5404319552844595 (-53).
Proof. vm_compute. repeat split. Qed.

Example json_loads_examples :
  JsonNumbers.loads "[1.5, 2, -3e0]" = inr [JFloat (ratio 3 2); JInt 2; JFloat (of_Z (-3))] /\
  JsonNumbers.loads "[]" = inr [] /\
  JsonNumbers.loads "[1,]" = inl (DecodeError "not a JSON array of numbers").
Proof. vm_compute. repeat split. Qed.

(** ** The console monad *)

Lemma bind_ret {A B : Type} (a : A) (k : A -> prog B) (c : console) :
  bind (ret a) k c = k a c.
Proof. reflexivity. Qed.

Lemma bind_exit {A B : Type} (l : line) (k : A -> prog B) (c : console) :
  bind (sys_exit l) k c = sys_exit l c.
Proof. reflexivity. Qed.

Lemma bind_assoc {A B C : Type} (m : prog A) (k : A -> prog B)
      (h : B -> prog C) (c : console) :
  bind (bind m k) h c = bind m (fun a => bind (k a) h) c.
Proof.
  unfold bind. destruct (m c) as [[a | n] c']; [destruct (k a c') as [[b | n] c'']|];
    reflexivity.
Qed.

(** ** List comprehensions *)

Lemma comprehension_length {A B : Type} (f : A -> result B) :
  forall (l : list A) (bs : list B),
    PySeq.comprehension f l = inr bs -> List.length bs = List.length l.
Proof.
  induction l as [| a l IH]; simpl; intros bs H.
  - injection H as <-. reflexivity.
  - destruct (f a) as [e | b]; [discriminate |].
    destruct (PySeq.comprehension f l) as [e | bs']; [discriminate |].
    injection H as <-. simpl. f_equal. apply IH. reflexivity.
Qed.

Lemma comprehension_raises {A B : Type} (f : A -> result B) :
  forall (l : list A),
    (exists a e, In a l /\ f a = inl e) ->
    exists e, PySeq.comprehension f l = inl e.
Proof.
  induction l as [| a l IH]; simpl; intros (a' & e & Hin & Hf).
  - contradiction.
  - destruct (f a) as [e0 | b] eqn:Ha; [eauto |].
    destruct Hin as [-> | Hin]; [congruence |].
    destruct IH as [e1 ->]; eauto.
Qed.

(** ** The parser and the guards *)

Section Guards.

Variable json_loads : string -> result (list json).
Variable summation : PySum.algorithm.

(** The JSON branch asks for exactly one argument. *)
Lemma parse_values_tokens (argv : list string) :
  List.length argv <> 1 -> parse_values json_loads argv = parse_tokens argv.
Proof.
  intros H. unfold parse_values.
  destruct (Nat.eqb_spec (List.length argv) 1); [contradiction | reflexivity].
Qed.

(** The token branch returns one float per argument and writes nothing. *)
Lemma parse_tokens_returns (argv : list string) (values : list float)
      (c c' : console) :
  parse_tokens argv c = (Return values, c') ->
  PySeq.comprehension PyFloat.float_of_str argv = inr values /\
  List.length values = List.length argv /\ c' = c.
Proof.
  unfold parse_tokens.
  destruct (PySeq.comprehension PyFloat.float_of_str argv) as [e | vs] eqn:E.
  - discriminate.
  - intros H. injection H as <- <-.
    repeat split. eapply comprehension_length; eassumption.
Qed.

(** The range validator goes on and leaves standard output alone. *)
Lemma warn_out_of_range_runs (values : list float) (c : console) :
  warn_out_of_range values c =
  (Return tt,
   Console (stdout c)
           (stderr c ++
            match filter (fun v => negb (in_range v)) values with
            | [] => []
            | bad => [Line warning_template [FFloats bad]]
            end)).
Proof.
  unfold warn_out_of_range.
  destruct (filter (fun v => negb (in_range v)) values); cbn.
  - rewrite app_nil_r. destruct c; reflexivity.
  - reflexivity.
Qed.

(** With at least three arguments, lines 51 to 55 come down to the token
    branch and the range warning. *)
Lemma checked_values_tokens (argv : list string) (c : console) :
  3 <= List.length argv ->
  checked_values json_loads argv c =
  match PySeq.comprehension PyFloat.float_of_str argv with
  | inl e => sys_exit (Line number_error_template [FExn e]) c
  | inr values => (warn_out_of_range values ;;; ret values) c
  end.
Proof.
  intros Hlen. unfold checked_values.
  rewrite parse_values_tokens by lia. unfold parse_tokens.
  destruct (PySeq.comprehension PyFloat.float_of_str argv) as [e | values] eqn:E.
  - reflexivity.
  - rewrite bind_ret. unfold bind. rewrite warn_out_of_range_runs.
    apply comprehension_length in E.
    destruct (Nat.ltb_spec (List.length values) K); [unfold K in *; lia | reflexivity].
Qed.

Lemma skipn_1_length {A : Type} (l : list A) :
  List.length (skipn 1 l) = List.length l - 1.
Proof. destruct l; simpl; lia. Qed.

(** The whole run, by cases on the guard and on the tokens. *)
Lemma run_main (sys_argv : list string) :
  run (main json_loads summation sys_argv) =
  if List.length sys_argv <? 4 then Outcome 1 [] [usage_message]
  else
    match PySeq.comprehension PyFloat.float_of_str (skipn 1 sys_argv) with
    | inl e => Outcome 1 [] [Line number_error_template [FExn e]]
    | inr values =>
        run (warn_out_of_range values ;;;
             report summation (best_comb summation values))
    end.
Proof.
  unfold main.
  destruct (Nat.ltb_spec (List.length sys_argv) 4) as [Hlt | Hge]; [reflexivity |].
  unfold run, process, bind at 1.
  rewrite checked_values_tokens by (rewrite skipn_1_length; lia).
  destruct (PySeq.comprehension PyFloat.float_of_str (skipn 1 sys_argv));
    [reflexivity |].
  unfold bind. rewrite warn_out_of_range_runs. reflexivity.
Qed.

End Guards.

(** ** The single JSON-array argument *)

(** Past the guard, the JSON form of the usage line is parsed and
    reported on. *)
Example json_form_after_the_guard :
  run (process JsonNumbers.loads PySum.LeftToRight ["[1.0, 7.0, 13.0]"%string]) =
  Outcome 0
    [Line triple_template [FFloat (of_Z 1); FFloat (of_Z 7); FFloat (of_Z 13)];
     Line mean_template [FFloat (of_Z 7)];
     Line ceiled_template [FFloat (of_Z 7)]]
    [].
Proof. vm_compute. reflexivity. Qed.

(** C1 (the code departs from it).  A run with one argument never reaches
    the parser: whatever the argument, and so also for a well-formed JSON
    array of three numbers or more, the guard on [len(sys.argv)] ends the
    run with the usage message, status 1 and an empty standard output. *)
Theorem single_argument_never_parsed :
  forall (json_loads : string -> result (list json))
         (summation : PySum.algorithm) (name arg : string),
    run (main json_loads summation [name; arg]) =
    Outcome 1 [] [usage_message].
Proof. intros. rewrite run_main. reflexivity. Qed.

(** Past the guard, an array of two numbers gets the message that names
    both counts. *)
Example short_array_after_the_guard :
  run (process JsonNumbers.loads PySum.LeftToRight ["[1.0, 2.0]"%string]) =
  Outcome 1 [] [Line too_few_template [FInt 3; FInt 2]].
Proof. vm_compute. reflexivity. Qed.

(** C3 (the code departs from it).  On the single argument [[1.0, 2.0]]
    the run ends with status 1 and an empty standard output, but the line
    on standard error is the usage message of the guard, not the message
    that states the required and the received count. *)
Theorem short_json_array_message :
  forall (json_loads : string -> result (list json))
         (summation : PySum.algorithm),
    let o := run (main json_loads summation [script; "[1.0, 2.0]"%string]) in
    status o = 1%Z /\ out o = [] /\ err o = [usage_message] /\
    err o <> [Line too_few_template [FInt 3; FInt 2]].
Proof.
  intros. subst o. rewrite run_main. cbn. repeat split. discriminate.
Qed.

(** ** The count check after parsing *)

Lemma printed_app (t : string) (l1 l2 : list line) :
  printed t (l1 ++ l2) = printed t l1 || printed t l2.
Proof. apply existsb_app. Qed.

(** What lines 70 to 77 do to the console: three lines on standard output,
    or a traceback. *)
Lemma report_runs (summation : PySum.algorithm) (best : option (list float))
      (c : console) :
  (exists a b d m mc,
      report summation best c =
      (Return tt,
       Console (stdout c ++ [Line triple_template [FFloat a; FFloat b; FFloat d];
                             Line mean_template [FFloat m];
                             Line ceiled_template [FFloat mc]])
               (stderr c))) \/
  (exists e,
      report summation best c =
      (Exit 1, Console (stdout c) (stderr c ++ [traceback e]))).
Proof.
  unfold report, bind, uncaught, ret, print.
  destruct best as [comb |]; [| right; eexists; reflexivity].
  destruct (ceil_to_thousandth (PySum.sum summation comb / K_float)%f64)
    as [e | mc] eqn:E; [right; exists e; reflexivity |].
  destruct comb as [| a [| b [| d [| x comb]]]];
    try (right; eexists; reflexivity).
  left. exists a, b, d, (PySum.sum summation [a; b; d] / K_float)%f64, mc.
  cbn. rewrite <- !app_assoc. reflexivity.
Qed.

(** C4.  The exit of lines 54 and 55 is dead code: a run that passes the
    guard has three arguments or more, so it takes the token branch, which
    gives one float per argument; the whole run is the guard, the token
    parser, the range warning and the report, and no run prints the
    "Need at least" message. *)
Theorem too_few_values_unreachable :
  forall (json_loads : string -> result (list json))
         (summation : PySum.algorithm) (sys_argv : list string),
    run (main json_loads summation sys_argv) =
    (if List.length sys_argv <? 4 then Outcome 1 [] [usage_message]
     else
       match PySeq.comprehension PyFloat.float_of_str (skipn 1 sys_argv) with
       | inl e => Outcome 1 [] [Line number_error_template [FExn e]]
       | inr values =>
           run (warn_out_of_range values ;;;
                report summation (best_comb summation values))
       end) /\
    printed too_few_template (err (run (main json_loads summation sys_argv)))
    = false.
Proof.
  intros. split; [apply run_main |].
  rewrite run_main.
  destruct (List.length sys_argv <? 4); [reflexivity |].
  destruct (PySeq.comprehension PyFloat.float_of_str (skipn 1 sys_argv))
    as [e | values]; [reflexivity |].
  unfold run, bind. rewrite warn_out_of_range_runs.
  match goal with |- context [report _ ?b ?c] =>
    destruct (report_runs summation b c) as [(a & b' & d & m & mc & ->) | (e & ->)]
  end; cbn [err stderr]; rewrite ?printed_app;
    destruct (filter (fun v => negb (in_range v)) values); reflexivity.
Qed.

(** ** Tokens that are not numbers *)

Lemma parse_values_not_json_form (json_loads : string -> result (list json))
      (argv : list string) :
  json_form argv = false -> parse_values json_loads argv = parse_tokens argv.
Proof.
  unfold json_form, parse_values. intros H.
  destruct (Nat.eqb (List.length argv) 1); [| reflexivity].
  cbn in H. rewrite H. reflexivity.
Qed.

(** C7.  On the per-token path, a token that [float] rejects makes
    [parse_values] exit with the "All inputs must be numbers" message, and
    the run ends with status 1, one line on standard error and nothing on
    standard output. *)
Theorem unparsable_token_is_fatal :
  forall (json_loads : string -> result (list json))
         (summation : PySum.algorithm) (name : string) (argv : list string),
    json_form argv = false ->
    (exists a, In a argv /\ PyFloat.of_string a = None) ->
    (forall c, exists e,
        parse_values json_loads argv c =
        (Exit 1,
         Console (stdout c)
                 (stderr c ++ [Line number_error_template [FExn e]]))) /\
    (let o := run (main json_loads summation (name :: argv)) in
     status o = 1%Z /\ out o = [] /\ exists l, err o = [l]).
Proof.
  intros json_loads summation name argv Hform (a & Hin & Ha).
  destruct (@comprehension_raises _ _ PyFloat.float_of_str argv) as [e He].
  { exists a, (CannotConvertString a). split; [assumption |].
    unfold PyFloat.float_of_str. rewrite Ha. reflexivity. }
  split.
  - intros c. exists e. rewrite parse_values_not_json_form by assumption.
    unfold parse_tokens. rewrite He. reflexivity.
  - rewrite run_main. change (skipn 1 (name :: argv)) with argv. rewrite He.
    destruct (List.length (name :: argv) <? 4); cbn; eauto.
Qed.

(** Scenario 4: the tokens [1.0 7.0 abc]. *)
Lemma unparsable_token_is_fatal_witness :
  (forall c, exists e,
      parse_values JsonNumbers.loads ["1.0"; "7.0"; "abc"]%string c =
      (Exit 1,
       Console (stdout c)
               (stderr c ++ [Line number_error_template [FExn e]]))) /\
  (let o := run (main JsonNumbers.loads PySum.LeftToRight
                      [script; "1.0"; "7.0"; "abc"]%string) in
   status o = 1%Z /\ out o = [] /\ exists l, err o = [l]).
Proof.
  apply (@unparsable_token_is_fatal JsonNumbers.loads PySum.LeftToRight script
           ["1.0"; "7.0"; "abc"]%string).
  - reflexivity.
  - exists "abc"%string. split; [simpl; tauto | reflexivity].
Defined.

Example scenario_4 :
  run (main JsonNumbers.loads PySum.LeftToRight
            [script; "1.0"; "7.0"; "abc"]%string) =
  Outcome 1 []
    [Line number_error_template [FExn (CannotConvertString "abc")]].
Proof. vm_compute. reflexivity. Qed.

(** ** The range validator *)

(** The bounds are the doubles that Python reads from the literals of
    line 43. *)
Lemma range_bounds :
  PyFloat.of_string "0.001" = Some RANGE_LOW /\
  PyFloat.of_string "14.0" = Some RANGE_HIGH.
Proof. split; vm_compute; reflexivity. Qed.

Lemma existsb_filter_nil {A : Type} (p : A -> bool) (l : list A) :
  existsb p l = false <-> filter p l = [].
Proof.
  induction l as [| a l IH]; simpl; [tauto |].
  destruct (p a); simpl; [split; discriminate | exact IH].
Qed.

(** C10.  When the warning fires, its text names the range [1.0–14.0],
    while the test that fires it is [0.001 <= v <= 14.0]: a value such as
    [0.5] lies outside the printed range and raises no warning. *)
Theorem warning_text_names_another_range :
  forall (values : list float) (c : console),
    (exists v, In v values /\ in_range v = false) ->
    (exists bad,
        warn_out_of_range values c =
        (Return tt,
         Console (stdout c)
                 (stderr c ++ [Line warning_template [FFloats bad]]))) /\
    String.index 0 "1.0–14.0" warning_template = Some 38 /\
    (forall v, in_range v = ((RANGE_LOW <=? v) && (v <=? RANGE_HIGH))%f64) /\
    PyFloat.of_string "0.001" = Some RANGE_LOW /\
    PyFloat.of_string "14.0" = Some RANGE_HIGH /\
    (exists v, PyFloat.of_string "0.5" = Some v /\ in_range v = true /\
               (v <? of_Z 1)%f64 = true).
Proof.
  intros values c (v & Hin & Hv).
  split; [| split; [| split; [| split; [| split]]]].
  - rewrite warn_out_of_range_runs.
    destruct (filter (fun v => negb (in_range v)) values) as [| b bad] eqn:E.
    + apply existsb_filter_nil in E.
      assert (existsb (fun v => negb (in_range v)) values = true) as E'.
      { apply existsb_exists. exists v. rewrite Hv. auto. }
      congruence.
    + eexists. reflexivity.
  - vm_compute. reflexivity.
  - reflexivity.
  - apply range_bounds.
  - apply range_bounds.
  - eexists. split; [vm_compute; reflexivity |]. split; vm_compute; reflexivity.
Qed.

(** Scenario 5's values: [0.0001] is below the lower bound. *)
Lemma warning_text_names_another_range_witness :
  let values := [ratio 1 10000; of_Z 7; of_Z 7] in
  (exists bad,
      warn_out_of_range values (Console [] []) =
      (Return tt, Console [] ([] ++ [Line warning_template [FFloats bad]]))) /\
  String.index 0 "1.0–14.0" warning_template = Some 38 /\
  (forall v, in_range v = ((RANGE_LOW <=? v) && (v <=? RANGE_HIGH))%f64) /\
  PyFloat.of_string "0.001" = Some RANGE_LOW /\
  PyFloat.of_string "14.0" = Some RANGE_HIGH /\
  (exists v, PyFloat.of_string "0.5" = Some v /\ in_range v = true /\
             (v <? of_Z 1)%f64 = true).
Proof.
  apply (@warning_text_names_another_range
           [ratio 1 10000; of_Z 7; of_Z 7] (Console [] [])).
  exists (ratio 1 10000). split; [simpl; tauto | vm_compute; reflexivity].
Defined.

Lemma warning_lines_filter (values : list float) :
  match filter (fun v => negb (in_range v)) values with
  | [] => []
  | bad => [Line warning_template [FFloats bad]]
  end = warning_lines values.
Proof.
  unfold warning_lines.
  destruct (existsb (fun v => negb (in_range v)) values) eqn:E.
  - destruct (filter (fun v => negb (in_range v)) values) eqn:F; [| reflexivity].
    apply existsb_filter_nil in F. congruence.
  - apply existsb_filter_nil in E. rewrite E. reflexivity.
Qed.

(** The report appends to the console it is given. *)
Lemma report_frame (summation : PySum.algorithm) (best : option (list float))
      (c : console) :
  report summation best c =
  let '(r, d) := report summation best (Console [] []) in
  (r, Console (stdout c ++ stdout d) (stderr c ++ stderr d)).
Proof.
  unfold report, bind, uncaught, ret, print.
  destruct best as [comb |]; [| cbn; rewrite app_nil_r; reflexivity].
  destruct (ceil_to_thousandth (PySum.sum summation comb / K_float)%f64)
    as [e | mc]; [cbn; rewrite app_nil_r; reflexivity |].
  destruct comb as [| a [| b [| d [| x comb]]]];
    cbn; rewrite ?app_nil_r, <- ?app_assoc; reflexivity.
Qed.

Lemma run_main_without_validator
      (json_loads : string -> result (list json))
      (summation : PySum.algorithm) (sys_argv : list string) :
  run (main_without_validator json_loads summation sys_argv) =
  if List.length sys_argv <? 4 then Outcome 1 [] [usage_message]
  else
    match PySeq.comprehension PyFloat.float_of_str (skipn 1 sys_argv) with
    | inl e => Outcome 1 [] [Line number_error_template [FExn e]]
    | inr values => run (report summation (best_comb summation values))
    end.
Proof.
  unfold main_without_validator.
  destruct (Nat.ltb_spec (List.length sys_argv) 4) as [Hlt | Hge]; [reflexivity |].
  rewrite parse_values_tokens by (rewrite skipn_1_length; lia).
  unfold parse_tokens.
  destruct (PySeq.comprehension PyFloat.float_of_str (skipn 1 sys_argv))
    as [e | values] eqn:E; [reflexivity |].
  apply comprehension_length in E. rewrite skipn_1_length in E.
  unfold run, bind, ret.
  destruct (Nat.ltb_spec (List.length values) K); [unfold K in *; lia | reflexivity].
Qed.

(** C6.  The validator prints one line on standard error exactly when some
    value fails [0.001 <= v <= 14.0], and the line lists those values; it
    returns and leaves standard output alone.  A run has the status and
    the standard output of the script without the validator; its standard
    error is that script's, preceded by the warning for the parsed values
    when the guard is passed and the arguments are numbers, and a run
    prints the warning exactly when one of its parsed values fails the
    test.  The run on [0.0001 7.0 7.0] prints the warning for [0.0001],
    then the three lines of the report, and returns 0. *)
Theorem range_warning_is_advisory :
  forall (json_loads : string -> result (list json))
         (summation : PySum.algorithm)
         (values : list float) (c : console) (sys_argv : list string),
    warn_out_of_range values c =
    (Return tt, Console (stdout c) (stderr c ++ warning_lines values)) /\
    (warning_lines values =
     [Line warning_template
           [FFloats (filter (fun v => negb (in_range v)) values)]] <->
     exists v, In v values /\
               ((RANGE_LOW <=? v) && (v <=? RANGE_HIGH))%f64 = false) /\
    (warning_lines values = [] <->
     forall v, In v values ->
               ((RANGE_LOW <=? v) && (v <=? RANGE_HIGH))%f64 = true) /\
    (let o := run (main json_loads summation sys_argv) in
     let o' := run (main_without_validator json_loads summation sys_argv) in
     status o = status o' /\ out o = out o' /\
     err o =
     (if List.length sys_argv <? 4 then []
      else
        match PySeq.comprehension PyFloat.float_of_str (skipn 1 sys_argv) with
        | inr vs => warning_lines vs
        | inl _ => []
        end) ++ err o' /\
     (printed warning_template (err o) = true <->
      (List.length sys_argv <? 4) = false /\
      exists vs,
        PySeq.comprehension PyFloat.float_of_str (skipn 1 sys_argv) = inr vs /\
        exists v, In v vs /\
                  ((RANGE_LOW <=? v) && (v <=? RANGE_HIGH))%f64 = false)) /\
    (let o := run (main json_loads summation
                        [script; "0.0001"; "7.0"; "7.0"]%string) in
     status o = 0%Z /\ List.length (out o) = 3 /\
     err o = [Line warning_template [FFloats [ratio 1 10000]]]).
Proof.
  intros json_loads summation values c sys_argv.
  split; [| split; [| split; [| split]]];
    [| | | | rewrite run_main; destruct summation; vm_compute; repeat split].
  - rewrite warn_out_of_range_runs, warning_lines_filter. reflexivity.
  - unfold warning_lines.
    destruct (existsb (fun v => negb (in_range v)) values) eqn:E.
    + split; [intros _ | reflexivity].
      apply existsb_exists in E. destruct E as (v & Hin & Hv).
      exists v. split; [assumption |].
      apply negb_true_iff in Hv. exact Hv.
    + split; [discriminate |]. intros (v & Hin & Hv).
      assert (existsb (fun v => negb (in_range v)) values = true) as E'.
      { apply existsb_exists. exists v. split; [assumption |].
        apply negb_true_iff. exact Hv. }
      congruence.
  - unfold warning_lines.
    destruct (existsb (fun v => negb (in_range v)) values) eqn:E.
    + split; [discriminate |]. intros H.
      apply existsb_exists in E. destruct E as (v & Hin & Hv).
      apply negb_true_iff in Hv. specialize (H v Hin).
      unfold in_range in Hv. congruence.
    + split; [intros _ | reflexivity]. intros v Hin.
      destruct ((RANGE_LOW <=? v) && (v <=? RANGE_HIGH))%f64 eqn:Hv;
        [reflexivity |].
      assert (existsb (fun v => negb (in_range v)) values = true) as E'.
      { apply existsb_exists. exists v. split; [assumption |].
        apply negb_true_iff. exact Hv. }
      congruence.
  - rewrite run_main, run_main_without_validator.
    destruct (List.length sys_argv <? 4).
    { split; [reflexivity |]. split; [reflexivity |]. split; [reflexivity |].
      split; [discriminate | intros [H _]; discriminate]. }
    destruct (PySeq.comprehension PyFloat.float_of_str (skipn 1 sys_argv))
      as [e | vs].
    { split; [reflexivity |]. split; [reflexivity |]. split; [reflexivity |].
      split; [discriminate | intros (_ & vs & H & _); discriminate]. }
    assert (printed warning_template (warning_lines vs) = true <->
            exists v, In v vs /\
                      ((RANGE_LOW <=? v) && (v <=? RANGE_HIGH))%f64 = false)
      as Hw.
    { unfold warning_lines.
      destruct (existsb (fun v => negb (in_range v)) vs) eqn:E.
      - split; [intros _ | reflexivity].
        apply existsb_exists in E. destruct E as (v & Hin & Hv).
        exists v. split; [assumption |]. apply negb_true_iff in Hv. exact Hv.
      - split; [discriminate |]. intros (v & Hin & Hv).
        assert (existsb (fun v => negb (in_range v)) vs = true) as E'.
        { apply existsb_exists. exists v. split; [assumption |].
          apply negb_true_iff. exact Hv. }
        congruence. }
    unfold run, bind. rewrite warn_out_of_range_runs, warning_lines_filter.
    rewrite report_frame.
    destruct (report_runs summation (best_comb summation vs) (Console [] []))
      as [(a & b & d & m & mc & ->) | (e & ->)];
      cbn [stdout stderr status out err app];
      (split; [reflexivity |]); (split; [reflexivity |]);
      (split; [reflexivity |]); rewrite printed_app;
      [change (printed warning_template []) with false
      |change (printed warning_template [traceback e]) with false];
      rewrite orb_false_r, Hw; split.
    + intros H. split; [reflexivity |]. exists vs. split; [reflexivity | exact H].
    + intros (_ & vs' & Hvs & H). injection Hvs as <-. exact H.
    + intros H. split; [reflexivity |]. exists vs. split; [reflexivity | exact H].
    + intros (_ & vs' & Hvs & H). injection Hvs as <-. exact H.
Qed.

Example scenario_5 :
  let o := run (main JsonNumbers.loads PySum.LeftToRight
                     [script; "0.0001"; "7.0"; "7.0"]%string) in
  status o = 0%Z /\ List.length (out o) = 3 /\
  err o = [Line warning_template [FFloats [ratio 1 10000]]].
Proof. vm_compute. repeat split. Qed.

(** ** Ceiling to the thousandth *)

Lemma ceil_is_least_integer (x : float) (k : Z) :
  PyMath.ceil x = inr k -> least_integer_at_least k x.
Proof.
  unfold least_integer_at_least.
  destruct x as [s | s | | s m e]; simpl; try discriminate.
  - intros H. injection H as <-. lia.
  - intros H. injection H as <-.
    set (n := cond_Zopp s (Z.pos m)).
    destruct e as [| p | p].
    + simpl. lia.
    + rewrite Z.max_l, Z.max_r by lia. simpl (2 ^ 0)%Z. lia.
    + rewrite Z.max_r, Z.max_l by lia. simpl (2 ^ 0)%Z.
      change (- Z.neg p)%Z with (Z.pos p).
      assert (0 < 2 ^ Z.pos p)%Z as Hd by (apply Z.pow_pos_nonneg; lia).
      pose proof (Z.div_mod (- n) (2 ^ Z.pos p) ltac:(lia)) as Hq.
      pose proof (Z.mod_pos_bound (- n) (2 ^ Z.pos p) Hd) as Hr.
      nia.
Qed.

Lemma literals_read :
  PyFloat.of_string "6.9999999" = Some lit_6_9999999 /\
  PyFloat.of_string "7.0001" = Some lit_7_0001 /\
  PyFloat.of_string "7.001" = Some lit_7_001 /\
  PyFloat.of_string "7.0" = Some (of_Z 7) /\
  PyFloat.of_string "0.043" = Some lit_0_043 /\
  PyFloat.of_string "0.043000000000000003" = Some lit_0_043000000000000003 /\
  PyFloat.of_string "0.129" = Some lit_0_129.
Proof. repeat split; vm_compute; reflexivity. Qed.

(** [ceil_to_thousandth x] is the double quotient [k / 1000.0], where [k]
    is the least integer not below the double product [x * 1000.0]; on
    [6.9999999], [7.0001] and [7.0] it gives [7.0], [7.001] and [7.0]. *)
Lemma ceil_to_thousandth_rounds_product :
  (ceil_to_thousandth lit_6_9999999 = inr (of_Z 7) /\
   ceil_to_thousandth lit_7_0001 = inr lit_7_001 /\
   ceil_to_thousandth (of_Z 7) = inr (of_Z 7)) /\
  forall (x y : float),
    ceil_to_thousandth x = inr y ->
    exists k, least_integer_at_least k (x * thousand)%f64 /\
              y = (of_Z k / thousand)%f64.
Proof.
  split; [repeat split; vm_compute; reflexivity |].
  intros x y. unfold ceil_to_thousandth.
  destruct (PyMath.ceil (x * thousand)%f64) as [e | k] eqn:E; [discriminate |].
  unfold PyFloat.float_of_int.
  destruct (is_finite (of_Z k)); [| discriminate].
  intros H. injection H as <-. exists k.
  split; [apply ceil_is_least_integer; assumption | reflexivity].
Qed.

Lemma ceil_to_thousandth_rounds_product_witness :
  exists k, least_integer_at_least k (lit_7_0001 * thousand)%f64 /\
            lit_7_001 = (of_Z k / thousand)%f64.
Proof.
  apply (proj2 ceil_to_thousandth_rounds_product lit_7_0001 lit_7_001).
  vm_compute. reflexivity.
Defined.

(** C5 (the code departs from it).  The comment of line 24 reads "Round
    UP to the nearest thousandth", and so do the docstring (line 11) and
    the label of line 77.  On the double [0.043000000000000003] the
    product with [1000.0] rounds to [43.0], so [ceil_to_thousandth]
    returns [0.043], which is below its argument: the exact value of the
    argument is above 43/1000, that of the result is not.  The run on
    the tokens [0.129 0 0] reaches that call: the only triple has the
    mean [0.043000000000000003], and the line labelled "rounded UP"
    carries [0.043]. *)
Theorem rounded_up_mean_below_mean :
  forall (json_loads : string -> result (list json))
         (summation : PySum.algorithm),
    (lit_0_043000000000000003 * thousand)%f64 = of_Z 43 /\
    ceil_to_thousandth lit_0_043000000000000003 = inr lit_0_043 /\
    (lit_0_043 <? lit_0_043000000000000003)%f64 = true /\
    mantissa_exponent lit_0_043000000000000003 =
    Some (6196953087261803, -57)%Z /\
    mantissa_exponent lit_0_043 = Some (6196953087261802, -57)%Z /\
    (1000 * 6196953087261802 < 43 * 2 ^ 57 < 1000 * 6196953087261803)%Z /\
    run (main json_loads summation [script; "0.129"; "0"; "0"]%string) =
    Outcome 0
      [Line triple_template [FFloat lit_0_129; FFloat zero; FFloat zero];
       Line mean_template [FFloat lit_0_043000000000000003];
       Line ceiled_template [FFloat lit_0_043]]
      [Line warning_template [FFloats [zero; zero]]].
Proof.
  intros json_loads summation.
  split; [vm_compute; reflexivity |].
  split; [vm_compute; reflexivity |].
  split; [vm_compute; reflexivity |].
  split; [vm_compute; reflexivity |].
  split; [vm_compute; reflexivity |].
  split; [vm_compute; split; reflexivity |].
  rewrite run_main. destruct summation; vm_compute; reflexivity.
Qed.

(** ** All or nothing on standard output *)

(** A run either prints the three lines and returns 0, or prints nothing
    and returns 1. *)
Lemma report_or_nothing :
  forall (json_loads : string -> result (list json))
         (summation : PySum.algorithm) (sys_argv : list string),
    let o := run (main json_loads summation sys_argv) in
    (status o = 0%Z /\
     exists a b c m mc,
       out o = [Line triple_template [FFloat a; FFloat b; FFloat c];
                Line mean_template [FFloat m];
                Line ceiled_template [FFloat mc]]) \/
    (status o = 1%Z /\ out o = []).
Proof.
  intros. subst o. rewrite run_main.
  destruct (List.length sys_argv <? 4); [right; split; reflexivity |].
  destruct (PySeq.comprehension PyFloat.float_of_str (skipn 1 sys_argv))
    as [e | values]; [right; split; reflexivity |].
  unfold run, bind. rewrite warn_out_of_range_runs.
  match goal with |- context [report _ ?b ?c] =>
    destruct (report_runs summation b c) as [(a & b' & d & m & mc & ->) | (e & ->)]
  end; cbn.
  - left. split; [reflexivity |]. exists a, b', d, m, mc. reflexivity.
  - right. split; reflexivity.
Qed.

(** A run that ends with status 1 was ended by [sys.exit] in the guard or
    in lines 51 to 55, or by an exception that left a traceback. *)
Lemma failure_sources :
  forall (json_loads : string -> result (list json))
         (summation : PySum.algorithm) (sys_argv : list string),
    status (run (main json_loads summation sys_argv)) <> 0%Z ->
    (List.length sys_argv <? 4) = true \/
    (exists c, checked_values json_loads (skipn 1 sys_argv) (Console [] [])
               = (Exit 1, c)) \/
    (exists values c e,
        checked_values json_loads (skipn 1 sys_argv) (Console [] [])
        = (Return values, c) /\
        err (run (main json_loads summation sys_argv)) = stderr c ++ [traceback e]).
Proof.
  intros json_loads summation sys_argv. rewrite run_main.
  destruct (Nat.ltb_spec (List.length sys_argv) 4) as [Hlt | Hge]; [auto |].
  intros H. right.
  rewrite checked_values_tokens by (rewrite skipn_1_length; lia).
  destruct (PySeq.comprehension PyFloat.float_of_str (skipn 1 sys_argv))
    as [e | values]; [left; eexists; reflexivity |].
  right. revert H. unfold run, bind. rewrite warn_out_of_range_runs.
  match goal with |- context [report _ ?b ?c] =>
    destruct (report_runs summation b c) as [(a & b' & d & m & mc & ->) | (e & ->)]
  end; cbn; intros H; [congruence |].
  exists values. eexists. exists e. split; reflexivity.
Qed.

(** C8 (the code departs from it).  On the tokens [1e308 1e308 1e308] the
    guard, the parser and the count check all pass, the search selects the
    only triple, and then [math.ceil] raises on the infinite mean: the run
    ends with status 1 and a traceback, after the search.  Standard output
    stays empty. *)
Theorem overflowing_mean_fails_after_search :
  forall (json_loads : string -> result (list json))
         (summation : PySum.algorithm),
    let argv := ["1e308"; "1e308"; "1e308"]%string in
    let values := [lit_1e308; lit_1e308; lit_1e308] in
    checked_values json_loads argv (Console [] []) =
    (Return values, Console [] [Line warning_template [FFloats values]]) /\
    best_comb summation values = Some values /\
    ceil_to_thousandth (PySum.sum summation values / K_float)%f64 =
    inl CannotConvertInfinity /\
    run (main json_loads summation (script :: argv)) =
    Outcome 1 []
      [Line warning_template [FFloats values]; traceback CannotConvertInfinity].
Proof.
  intros json_loads summation argv values. subst argv values.
  split; [| split; [| split]].
  - rewrite checked_values_tokens by (simpl; lia). vm_compute. reflexivity.
  - destruct summation; vm_compute; reflexivity.
  - destruct summation; vm_compute; reflexivity.
  - rewrite run_main. destruct summation; vm_compute; reflexivity.
Qed.

(* ================================================================== *)
(** * The order of doubles *)
(* ================================================================== *)

Ltac compare_cases :=
  repeat match goal with
         | |- context [Z.compare ?a ?b] => destruct (Z.compare_spec a b)
         | |- context [Pos.compare_cont Eq ?a ?b] =>
             change (Pos.compare_cont Eq a b) with (Pos.compare a b);
             destruct (Pos.compare_spec a b)
         end.

Ltac rank_cases x y :=
  destruct x as [[] | [] | | [] ? ?], y as [[] | [] | | [] ? ?];
  cbn; compare_cases; cbn.

Lemma ltb_rank (x y : float) :
  (x <? y)%f64 = true <->
  match rank x, rank y with
  | Some p, Some q => lex_lt p q
  | _, _ => False
  end.
Proof.
  unfold ltb, SFltb.
  rank_cases x y; split; intros Hlt; try reflexivity; try discriminate;
    try contradiction; lia.
Qed.

Lemma eqb_rank (x y : float) :
  (x == y)%f64 = true <->
  match rank x, rank y with
  | Some p, Some q => p = q
  | _, _ => False
  end.
Proof.
  unfold eqb, SFeqb.
  rank_cases x y; split; intros Heq; try reflexivity; try discriminate;
    try contradiction; try (injection Heq; intros; lia);
    try (repeat f_equal; lia).
Qed.

(** Comparisons of doubles are turned into facts on ranks and decided by
    linear arithmetic. *)
Ltac to_ranks :=
  repeat match goal with
         | H : (_ == _)%f64 = true |- _ => apply eqb_rank in H
         | H : (_ <? _)%f64 = true |- _ => apply ltb_rank in H
         | H : (_ == _)%f64 = false |- _ =>
             apply not_true_iff_false in H; rewrite eqb_rank in H
         | H : (_ <? _)%f64 = false |- _ =>
             apply not_true_iff_false in H; rewrite ltb_rank in H
         | |- (_ == _)%f64 = true => apply eqb_rank
         | |- (_ <? _)%f64 = true => apply ltb_rank
         | |- (_ == _)%f64 = false =>
             apply not_true_iff_false; rewrite eqb_rank
         | |- (_ <? _)%f64 = false =>
             apply not_true_iff_false; rewrite ltb_rank
         end.

Ltac split_ranks :=
  repeat match goal with
         | H : context [rank ?x] |- _ => destruct (rank x) as [[[? ?] ?] |]
         | |- context [rank ?x] => destruct (rank x) as [[[? ?] ?] |]
         end.

Ltac rank_facts :=
  repeat match goal with
         | H : (_, _, _) = (_, _, _) |- _ => injection H as ? ? ?
         | H : ~ (_, _, _) = (_, _, _) |- _ =>
             let H' := fresh in
             assert (H' := fun a b c => H (f_equal2 pair (f_equal2 pair a b) c));
             clear H
         end.

Ltac float_order :=
  to_ranks; split_ranks; cbn [lex_lt] in *; rank_facts;
  try contradiction; try tauto;
  try (intro; rank_facts); try (f_equal; [f_equal |]); lia.

Lemma ltb_trans (x y z : float) :
  (x <? y)%f64 = true -> (y <? z)%f64 = true -> (x <? z)%f64 = true.
Proof. intros; float_order. Qed.

Lemma ltb_asym (x y : float) : (x <? y)%f64 = true -> (y <? x)%f64 = false.
Proof. intros; float_order. Qed.

Lemma ltb_irrefl (x : float) : (x <? x)%f64 = false.
Proof. float_order. Qed.

Lemma ltb_not_eqb (x y : float) :
  (x <? y)%f64 = true -> (x == y)%f64 = false.
Proof. intros; float_order. Qed.

Lemma eqb_sym (x y : float) : (x == y)%f64 = (y == x)%f64.
Proof.
  destruct (y == x)%f64 eqn:E; float_order.
Qed.

Lemma eqb_trans (x y z : float) :
  (x == y)%f64 = true -> (y == z)%f64 = true -> (x == z)%f64 = true.
Proof. intros; float_order. Qed.

Lemma eqb_ltb (x y z : float) :
  (x == y)%f64 = true -> (y <? z)%f64 = true -> (x <? z)%f64 = true.
Proof. intros; float_order. Qed.

Lemma ltb_eqb (x y z : float) :
  (x <? y)%f64 = true -> (y == z)%f64 = true -> (x <? z)%f64 = true.
Proof. intros; float_order. Qed.

(** ** The order of tuples and of keys *)

Lemma tuple_lt_irrefl (a : list float) : PySeq.tuple_lt a a = false.
Proof.
  induction a as [| x a IH]; simpl; [reflexivity |].
  destruct (x == x)%f64; [exact IH | apply ltb_irrefl].
Qed.

Lemma tuple_lt_trans (a b c : list float) :
  PySeq.tuple_lt a b = true -> PySeq.tuple_lt b c = true ->
  PySeq.tuple_lt a c = true.
Proof.
  revert b c. induction a as [| x a IH]; intros [| y b] [| z c]; simpl;
    try discriminate; try reflexivity.
  destruct (x == y)%f64 eqn:Exy, (y == z)%f64 eqn:Eyz; intros H1 H2.
  - rewrite (eqb_trans _ _ _ Exy Eyz). eauto.
  - pose proof (eqb_ltb _ _ _ Exy H2) as Hxz.
    rewrite (ltb_not_eqb _ _ Hxz). exact Hxz.
  - pose proof (ltb_eqb _ _ _ H1 Eyz) as Hxz.
    rewrite (ltb_not_eqb _ _ Hxz). exact Hxz.
  - pose proof (ltb_trans _ _ _ H1 H2) as Hxz.
    rewrite (ltb_not_eqb _ _ Hxz). exact Hxz.
Qed.

Lemma key_lt_tuple (k1 k2 : key) :
  key_lt k1 k2 = PySeq.tuple_lt (key_tuple k1) (key_tuple k2).
Proof. destruct k1 as [[d1 s1] t1], k2 as [[d2 s2] t2]. reflexivity. Qed.

Lemma key_lt_irrefl (k : key) : key_lt k k = false.
Proof. rewrite key_lt_tuple. apply tuple_lt_irrefl. Qed.

Lemma key_lt_trans (k1 k2 k3 : key) :
  key_lt k1 k2 = true -> key_lt k2 k3 = true -> key_lt k1 k3 = true.
Proof. rewrite !key_lt_tuple. apply tuple_lt_trans. Qed.

(** ** Combinations *)

Lemma combinations_length {A : Type} (l : list A) :
  forall r, List.length (PySeq.combinations l r) = choose (List.length l) r.
Proof.
  induction l as [| x l IH]; intros [| r]; simpl; try reflexivity.
  rewrite length_app, length_map, !IH. reflexivity.
Qed.

Lemma choose_0 (n : nat) : choose n 0 = 1.
Proof. destruct n; reflexivity. Qed.

Lemma choose_1 (n : nat) : choose n 1 = n.
Proof.
  induction n as [| n IH]; [reflexivity |].
  change (choose (S n) 1) with (choose n 0 + choose n 1).
  rewrite choose_0, IH. reflexivity.
Qed.

Lemma choose_2 (n : nat) : 2 * choose n 2 = n * (n - 1).
Proof.
  induction n as [| n IH]; [reflexivity |].
  change (choose (S n) 2) with (choose n 1 + choose n 2).
  rewrite choose_1. destruct n; [reflexivity |].
  replace (S (S n) - 1) with (S n) by lia.
  replace (S n - 1) with n in IH by lia. nia.
Qed.

Lemma choose_3 (n : nat) : 6 * choose n 3 = n * (n - 1) * (n - 2).
Proof.
  induction n as [| n IH]; [reflexivity |].
  change (choose (S n) 3) with (choose n 2 + choose n 3).
  pose proof (choose_2 n) as H2.
  destruct n as [| [| n]]; [reflexivity | reflexivity |].
  replace (S (S (S n)) - 1) with (S (S n)) by lia.
  replace (S (S (S n)) - 2) with (S n) by lia.
  replace (S (S n) - 1) with (S n) in * by lia.
  replace (S (S n) - 2) with n in IH by lia. nia.
Qed.

Lemma choose_pos (n r : nat) : r <= n -> 0 < choose n r.
Proof.
  revert r. induction n as [| n IH]; intros [| r] H;
    rewrite ?choose_0; try lia.
  change (choose (S n) (S r)) with (choose n r + choose n (S r)).
  assert (0 < choose n r) by (apply IH; lia). lia.
Qed.

Lemma subseq_nil_l {A : Type} (l : list A) : subseq [] l.
Proof. induction l; constructor; assumption. Qed.

Lemma combinations_subseq {A : Type} (l c : list A) :
  forall r, In c (PySeq.combinations l r) <-> subseq c l /\ List.length c = r.
Proof.
  revert c. induction l as [| x l IH]; intros c [| r]; simpl.
  - split.
    + intros [<- | []]. split; [constructor | reflexivity].
    + intros [_ H]. destruct c; [auto | discriminate].
  - split; [contradiction |]. intros [H Hl]. inversion H; subst. discriminate.
  - split.
    + intros [<- | []]. split; [apply subseq_nil_l | reflexivity].
    + intros [_ H]. destruct c; [auto | discriminate].
  - rewrite in_app_iff, in_map_iff. split.
    + intros [(c' & <- & Hc') | H].
      * apply IH in Hc'. destruct Hc' as [Hs <-].
        split; [constructor; assumption | reflexivity].
      * apply IH in H. destruct H as [Hs Hl].
        split; [constructor; assumption | assumption].
    + intros [Hs Hl]. inversion Hs; subst.
      * left. exists c0. split; [reflexivity |].
        apply IH. split; [assumption |]. simpl in Hl. lia.
      * right. apply IH. split; assumption.
Qed.

(** ** The search *)

Section Search.

Variable summation : PySum.algorithm.

Lemma consider_best_so_far (seen : list (list float))
      (st : option (list float * key)) (c : list float) :
  best_so_far summation seen st ->
  best_so_far summation (seen ++ [c]) (consider summation st c).
Proof.
  unfold consider, best_so_far.
  destruct st as [[bc bk] |].
  - intros (Hk & Hin & Hmin).
    destruct (key_lt (key_of summation c) bk) eqn:E.
    + split; [reflexivity |]. split; [apply in_or_app; simpl; auto |].
      intros c' Hc'. apply in_app_or in Hc'. destruct Hc' as [Hc' | [<- | []]].
      * destruct (key_lt (key_of summation c') (key_of summation c)) eqn:E'; [| reflexivity].
        rewrite <- (Hmin c' Hc'). symmetry.
        eapply key_lt_trans; eassumption.
      * apply key_lt_irrefl.
    + split; [assumption |]. split; [apply in_or_app; auto |].
      intros c' Hc'. apply in_app_or in Hc'. destruct Hc' as [Hc' | [<- | []]].
      * auto.
      * assumption.
  - intros ->. split; [reflexivity |]. split; [simpl; auto |].
    intros c' [<- | []]. apply key_lt_irrefl.
Qed.

Lemma fold_best_so_far (combs seen : list (list float))
      (st : option (list float * key)) :
  best_so_far summation seen st ->
  best_so_far summation (seen ++ combs) (fold_left (consider summation) combs st).
Proof.
  revert seen st. induction combs as [| c combs IH]; intros seen st H; simpl.
  - rewrite app_nil_r. assumption.
  - replace (seen ++ c :: combs) with ((seen ++ [c]) ++ combs)
      by (rewrite <- app_assoc; reflexivity).
    apply IH, consider_best_so_far, H.
Qed.

Lemma search_best_so_far (values : list float) :
  best_so_far summation (PySeq.combinations values K) (search summation values).
Proof. apply (fold_best_so_far _ [] None). reflexivity. Qed.

End Search.

(** ** NaN items

    A combination with a NaN item has a NaN sum and so a NaN first key
    component, and [<] on keys is then decided there: it is false.  The
    sorted tuple of such a key is never compared. *)

Lemma add_nan_l (y : float) : (nan + y)%f64 = nan.
Proof. destruct y; reflexivity. Qed.

Lemma add_nan_r (x : float) : (x + nan)%f64 = nan.
Proof. destruct x as [[] | [] | |]; reflexivity. Qed.

Lemma is_nan_eq (x : float) : is_nan x = true -> x = nan.
Proof. destruct x; simpl; intros; try discriminate; reflexivity. Qed.

Lemma fold_add_nan (xs : list float) :
  forall acc,
    is_nan acc = true \/ Exists (fun x => is_nan x = true) xs ->
    is_nan (fold_left add xs acc) = true.
Proof.
  induction xs as [| x xs IH]; intros acc [H | H]; simpl.
  - exact H.
  - inversion H.
  - apply IH. left. rewrite (is_nan_eq _ H), add_nan_l. reflexivity.
  - apply IH. inversion H as [? ? Hx | ? ? Hxs]; subst.
    + left. rewrite (is_nan_eq _ Hx), add_nan_r. reflexivity.
    + right. exact Hxs.
Qed.

Lemma fold_neumaier_nan (xs : list float) :
  forall st,
    is_nan (fst st) = true \/ Exists (fun x => is_nan x = true) xs ->
    is_nan (fst (fold_left PySum.neumaier xs st)) = true.
Proof.
  induction xs as [| x xs IH]; intros [f c] [H | H]; simpl in *.
  - exact H.
  - inversion H.
  - apply IH. left. rewrite (is_nan_eq _ H), add_nan_l.
    destruct (abs x <=? abs nan)%f64; reflexivity.
  - apply IH. inversion H as [? ? Hx | ? ? Hxs]; subst.
    + left. rewrite (is_nan_eq _ Hx), add_nan_r.
      destruct (abs nan <=? abs f)%f64; reflexivity.
    + right. exact Hxs.
Qed.

Lemma sum_nan (alg : PySum.algorithm) (xs : list float) :
  Exists (fun x => is_nan x = true) xs -> is_nan (PySum.sum alg xs) = true.
Proof.
  intros H. destruct alg; unfold PySum.sum.
  - apply fold_add_nan. right. exact H.
  - destruct xs as [| x xs]; [inversion H |].
    assert (is_nan (fst (fold_left PySum.neumaier xs ((zero + x)%f64, zero)))
            = true) as Hf.
    { apply fold_neumaier_nan. inversion H as [? ? Hx | ? ? Hxs]; subst.
      - left. rewrite (is_nan_eq _ Hx), add_nan_r. reflexivity.
      - right. exact Hxs. }
    destruct (fold_left PySum.neumaier xs ((zero + x)%f64, zero)) as [f c].
    cbn [fst] in Hf. rewrite (is_nan_eq _ Hf).
    destruct c; reflexivity.
Qed.

Lemma nan_item_nan_key (alg : PySum.algorithm) (c : list float) :
  Exists (fun x => is_nan x = true) c ->
  is_nan (fst (fst (key_of alg c))) = true.
Proof.
  intros H. unfold key_of. cbn [fst].
  rewrite (is_nan_eq _ (sum_nan alg H)). reflexivity.
Qed.

Lemma nan_key_never_smaller (k1 k2 : key) :
  is_nan (fst (fst k1)) = true \/ is_nan (fst (fst k2)) = true ->
  key_lt k1 k2 = false.
Proof.
  destruct k1 as [[d1 s1] t1], k2 as [[d2 s2] t2]. cbn [fst key_lt].
  intros [H | H]; rewrite (is_nan_eq _ H).
  - reflexivity.
  - destruct d1 as [[] | [] | | [] ? ?]; reflexivity.
Qed.

(** ** [sorted] sorts *)

Lemma insert_permutation (x : float) (l : list float) :
  Permutation (PySeq.insert x l) (x :: l).
Proof.
  induction l as [| y l IH]; simpl; [reflexivity |].
  destruct (x <? y)%f64; [reflexivity |].
  rewrite IH. apply perm_swap.
Qed.

Lemma fold_insert_is_permutation (l : list float) :
  forall acc,
    Permutation (fold_left (fun acc x => PySeq.insert x acc) l acc) (l ++ acc).
Proof.
  induction l as [| x l IH]; intros acc; simpl; [reflexivity |].
  rewrite IH, insert_permutation. symmetry. apply Permutation_middle.
Qed.

Lemma sorted_is_permutation (l : list float) : Permutation (PySeq.sorted l) l.
Proof.
  unfold PySeq.sorted. rewrite fold_insert_is_permutation, app_nil_r.
  reflexivity.
Qed.

Lemma insert_ascending (x : float) (l : list float) :
  StronglySorted (fun a b => (b <? a)%f64 = false) l ->
  StronglySorted (fun a b => (b <? a)%f64 = false) (PySeq.insert x l).
Proof.
  induction 1 as [| y l Hl IH Hy]; simpl.
  - repeat constructor.
  - destruct (x <? y)%f64 eqn:E.
    + constructor; [constructor; assumption |].
      constructor; [apply ltb_asym, E |].
      rewrite Forall_forall in *. intros z Hz.
      destruct (z <? x)%f64 eqn:Ezx; [| reflexivity].
      rewrite <- (Hy z Hz). symmetry. eapply ltb_trans; eassumption.
    + constructor; [exact IH |].
      eapply Permutation_Forall;
        [symmetry; apply insert_permutation | constructor; assumption].
Qed.

Lemma sorted_ascending (l : list float) :
  StronglySorted (fun a b => (b <? a)%f64 = false) (PySeq.sorted l).
Proof.
  unfold PySeq.sorted.
  assert (forall acc,
             StronglySorted (fun a b => (b <? a)%f64 = false) acc ->
             StronglySorted (fun a b => (b <? a)%f64 = false)
                            (fold_left (fun acc x => PySeq.insert x acc) l acc))
    as H.
  { induction l as [| x l IH]; intros acc Hacc; simpl; [exact Hacc |].
    apply IH, insert_ascending, Hacc. }
  apply H. constructor.
Qed.

(** The search on three values or more returns a combination that has no
    smaller key among the combinations. *)
Lemma best_comb_minimal (summation : PySum.algorithm) (values : list float) :
  3 <= List.length values ->
  exists best,
    best_comb summation values = Some best /\
    In best (PySeq.combinations values 3) /\
    forall c, In c (PySeq.combinations values 3) ->
              key_lt (key_of summation c) (key_of summation best) = false.
Proof.
  intros Hlen.
  pose proof (search_best_so_far summation values) as Hinv.
  unfold best_comb. unfold best_so_far in Hinv.
  destruct (search summation values) as [[best bk] |].
  - destruct Hinv as (-> & Hin & Hmin). exists best. auto.
  - exfalso.
    pose proof (combinations_length values K) as Hc.
    pose proof (@choose_pos (List.length values) K Hlen) as Hp.
    rewrite Hinv in Hc. simpl in Hc. lia.
Qed.

Lemma target_sum : TARGET_SUM = of_Z 21.
Proof. vm_compute. reflexivity. Qed.

(** C2.  For three values or more, the search returns one of the
    [C(n,3)] three-element subsequences of the input, and no
    three-element subsequence has a key smaller than that of the one
    returned, the key being [(|mean - 7.0|, |sum - 21.0|, sorted values)]
    under Python's [<] on tuples; the sorted values are the values of the
    combination in ascending order. *)
Theorem selected_combination_is_minimal :
  forall (summation : PySum.algorithm) (values : list float),
    3 <= List.length values ->
    exists best,
      best_comb summation values = Some best /\
      In best (PySeq.combinations values 3) /\
      (subseq best values /\ List.length best = 3) /\
      (List.length (PySeq.combinations values 3)
       = choose (List.length values) 3 /\
       6 * choose (List.length values) 3
       = List.length values * (List.length values - 1)
         * (List.length values - 2)) /\
      (forall c,
          key_of summation c =
          (abs (PySum.sum summation c / of_Z 3 - of_Z 7)%f64,
           abs (PySum.sum summation c - of_Z 21)%f64,
           PySeq.sorted c) /\
          Permutation (PySeq.sorted c) c /\
          StronglySorted (fun a b => (b <? a)%f64 = false) (PySeq.sorted c)) /\
      (forall c, In c (PySeq.combinations values 3) ->
                 key_lt (key_of summation c) (key_of summation best) = false).
Proof.
  intros summation values Hlen.
  destruct (@best_comb_minimal summation values Hlen) as (best & Hb & Hin & Hmin).
  exists best.
  split; [exact Hb |]. split; [exact Hin |].
  split; [apply combinations_subseq; exact Hin |].
  split; [split; [apply combinations_length | apply choose_3] |].
  split; [| exact Hmin].
  intros c. split; [| split].
  - unfold key_of. rewrite target_sum. reflexivity.
  - apply sorted_is_permutation.
  - apply sorted_ascending.
Qed.

Lemma selected_combination_is_minimal_witness :
  exists best,
    best_comb PySum.LeftToRight scenario_2_values = Some best /\
    In best (PySeq.combinations scenario_2_values 3) /\
    (subseq best scenario_2_values /\ List.length best = 3) /\
    (List.length (PySeq.combinations scenario_2_values 3)
     = choose (List.length scenario_2_values) 3 /\
     6 * choose (List.length scenario_2_values) 3
     = List.length scenario_2_values * (List.length scenario_2_values - 1)
       * (List.length scenario_2_values - 2)) /\
    (forall c,
        key_of PySum.LeftToRight c =
        (abs (PySum.sum PySum.LeftToRight c / of_Z 3 - of_Z 7)%f64,
         abs (PySum.sum PySum.LeftToRight c - of_Z 21)%f64,
         PySeq.sorted c) /\
        Permutation (PySeq.sorted c) c /\
        StronglySorted (fun a b => (b <? a)%f64 = false) (PySeq.sorted c)) /\
    (forall c, In c (PySeq.combinations scenario_2_values 3) ->
               key_lt (key_of PySum.LeftToRight c)
                      (key_of PySum.LeftToRight best) = false).
Proof.
  apply (@selected_combination_is_minimal PySum.LeftToRight scenario_2_values).
  simpl. lia.
Defined.

Example scenario_2 :
  PySeq.comprehension PyFloat.float_of_str
    ["1.356"; "7.522"; "5.498"; "9.1"; "2.0"]%string = inr scenario_2_values /\
  List.length (PySeq.combinations scenario_2_values 3) = 10 /\
  best_comb PySum.LeftToRight scenario_2_values
  = Some [ratio 7522 1000; ratio 5498 1000; ratio 91 10] /\
  best_comb PySum.Compensated scenario_2_values
  = Some [ratio 7522 1000; ratio 5498 1000; ratio 91 10].
Proof. repeat split; vm_compute; reflexivity. Qed.

Example scenario_1 :
  run (main JsonNumbers.loads PySum.LeftToRight
            [script; "1.0"; "7.0"; "13.0"]%string) =
  Outcome 0
    [Line triple_template [FFloat (of_Z 1); FFloat (of_Z 7); FFloat (of_Z 13)];
     Line mean_template [FFloat (of_Z 7)];
     Line ceiled_template [FFloat (of_Z 7)]]
    [].
Proof. vm_compute. reflexivity. Qed.

(* ================================================================== *)
(** * Arithmetic never invents a NaN *)
(* ================================================================== *)

Section Rounding.

Local Open Scope Z_scope.

Lemma shr_1_nonneg (r : shr_record) : 0 <= shr_m r -> 0 <= shr_m (shr_1 r).
Proof.
  destruct r as [m b s]. simpl.
  destruct m as [| [p | p |] | p]; simpl; lia.
Qed.

Lemma iter_shr_1_nonneg (n : positive) :
  forall r, 0 <= shr_m r -> 0 <= shr_m (iter_pos shr_1 n r).
Proof.
  induction n as [n IH | n IH |]; intros r H; simpl.
  - apply IH, IH, shr_1_nonneg, H.
  - apply IH, IH, H.
  - apply shr_1_nonneg, H.
Qed.

Lemma shr_fexp_nonneg (m e : Z) (l : location) :
  0 <= m -> 0 <= shr_m (fst (shr_fexp prec emax m e l)).
Proof.
  intros H. unfold shr_fexp, shr.
  assert (0 <= shr_m (shr_record_of_loc m l)) as H0
      by (destruct l as [| []]; exact H).
  destruct (fexp prec emax (Zdigits2 m + e) - e); simpl; try exact H0.
  apply iter_shr_1_nonneg, H0.
Qed.

Lemma round_nearest_even_nonneg (m : Z) (l : location) :
  0 <= m -> 0 <= round_nearest_even m l.
Proof.
  intros H. destruct l as [| []]; simpl; try lia.
  destruct (Z.even m); lia.
Qed.

Lemma binary_round_aux_not_nan (s : bool) (m e : Z) (l : location) :
  0 <= m -> is_nan (binary_round_aux prec emax s m e l) = false.
Proof.
  intros H. unfold binary_round_aux.
  pose proof (shr_fexp_nonneg e l H) as H1.
  destruct (shr_fexp prec emax m e l) as [r1 e1]. simpl in H1.
  pose proof (@shr_fexp_nonneg
                (round_nearest_even (shr_m r1) (loc_of_shr_record r1)) e1
                loc_Exact (round_nearest_even_nonneg _ H1)) as H2.
  destruct (shr_fexp prec emax
              (round_nearest_even (shr_m r1) (loc_of_shr_record r1)) e1
              loc_Exact) as [r2 e2].
  simpl in H2. destruct (shr_m r2) as [| p | p]; [reflexivity | | lia].
  destruct (e2 <=? emax - prec); reflexivity.
Qed.

Lemma binary_normalize_not_nan (m e : Z) (z : bool) :
  is_nan (binary_normalize prec emax m e z) = false.
Proof.
  unfold binary_normalize, binary_round.
  destruct m as [| p | p]; [reflexivity | |];
    match goal with
    | |- context [shl_align ?a ?b ?c] => destruct (shl_align a b c)
    end; apply binary_round_aux_not_nan; lia.
Qed.

End Rounding.

Lemma add_not_nan (x y : float) :
  is_nan x = false -> is_finite y = true -> is_nan (x + y)%f64 = false.
Proof.
  destruct x as [[] | [] | | sx mx ex], y as [[] | [] | | sy my ey];
    simpl; intros; try discriminate; try reflexivity;
    apply binary_normalize_not_nan.
Qed.

Lemma sub_not_nan (x y : float) :
  is_nan x = false -> is_finite y = true -> is_nan (x - y)%f64 = false.
Proof.
  destruct x as [[] | [] | | sx mx ex], y as [[] | [] | | sy my ey];
    simpl; intros; try discriminate; try reflexivity;
    apply binary_normalize_not_nan.
Qed.

Lemma div_not_nan (x : float) (s : bool) (m : positive) (e : Z) :
  is_nan x = false -> is_nan (x / S754_finite s m e)%f64 = false.
Proof.
  destruct x as [[] | [] | | sx mx ex]; simpl; intros; try discriminate;
    try reflexivity.
  unfold div, SFdiv, SFdiv_core_binary.
  match goal with
  | |- context [Z.div_eucl ?a ?b] =>
      pose proof (Z_div_mod a b ltac:(reflexivity)) as Hdiv;
      assert (0 <= a)%Z as Ha;
      [| destruct (Z.div_eucl a b) as [q r]]
  end.
  { match goal with
    | |- (0 <= match ?d with _ => _ end)%Z => destruct d
    end; try lia. rewrite Z.shiftl_mul_pow2 by lia.
    apply Z.mul_nonneg_nonneg; [lia | apply Z.pow_nonneg; lia]. }
  apply binary_round_aux_not_nan. destruct Hdiv as [Hq Hr]. nia.
Qed.

Lemma abs_not_nan (x : float) : is_nan (abs x) = is_nan x.
Proof. destruct x; reflexivity. Qed.

Lemma fold_add_not_nan (xs : list float) :
  Forall (fun x => is_finite x = true) xs ->
  forall acc, is_nan acc = false -> is_nan (fold_left add xs acc) = false.
Proof.
  induction 1 as [| x xs Hx _ IH]; intros acc Hacc; simpl; [exact Hacc |].
  apply IH, add_not_nan; assumption.
Qed.

Lemma fold_neumaier_not_nan (xs : list float) :
  Forall (fun x => is_finite x = true) xs ->
  forall st, is_nan (fst st) = false ->
             is_nan (fst (fold_left PySum.neumaier xs st)) = false.
Proof.
  induction 1 as [| x xs Hx _ IH]; intros [f c] Hst; simpl; [exact Hst |].
  apply IH. simpl in Hst.
  destruct (abs x <=? abs f)%f64; simpl; apply add_not_nan; assumption.
Qed.

(** The sum of finite doubles is a double or an infinity, under either
    algorithm. *)
Lemma sum_not_nan (alg : PySum.algorithm) (xs : list float) :
  Forall (fun x => is_finite x = true) xs ->
  is_nan (PySum.sum alg xs) = false.
Proof.
  intros H. destruct alg; unfold PySum.sum.
  - apply fold_add_not_nan; [assumption | reflexivity].
  - destruct H as [| x xs Hx Hxs]; [reflexivity |].
    pose proof (@fold_neumaier_not_nan xs Hxs ((zero + x)%f64, zero)
                  (add_not_nan zero x eq_refl Hx)) as Hf.
    destruct (fold_left PySum.neumaier xs ((zero + x)%f64, zero)) as [f c].
    cbn [fst] in Hf. destruct c; try exact Hf.
    apply add_not_nan; [exact Hf | reflexivity].
Qed.

(** The first two components of a key are not NaN when the sum is not. *)
Lemma key_not_nan (alg : PySum.algorithm) (c : list float) :
  is_nan (PySum.sum alg c) = false ->
  is_nan (fst (fst (key_of alg c))) = false /\
  is_nan (snd (fst (key_of alg c))) = false.
Proof.
  intros H. unfold key_of. simpl. rewrite !abs_not_nan. split.
  - apply sub_not_nan; [| reflexivity].
    change K_float with (S754_finite false 6755399441055744 (-51)).
    apply div_not_nan, H.
  - apply sub_not_nan; [exact H | reflexivity].
Qed.

(** ** Doubles on which [==] is identity *)

Lemma ordinary_finite (x : float) : ordinary x = true -> is_finite x = true.
Proof. destruct x as [[] | | |]; simpl; congruence. Qed.

Lemma ordinary_eqb (x y : float) :
  ordinary x = true -> ordinary y = true -> (x == y)%f64 = true -> x = y.
Proof.
  intros Hx Hy H. apply eqb_rank in H.
  destruct x as [[] | [] | | [] mx ex], y as [[] | [] | | [] my ey];
    cbn [ordinary rank] in *; try discriminate; try contradiction;
    try reflexivity; injection H; intros; f_equal; lia.
Qed.

Lemma not_nan_trichotomy (x y : float) :
  is_nan x = false -> is_nan y = false ->
  (x <? y)%f64 = false -> (y <? x)%f64 = false -> (x == y)%f64 = true.
Proof.
  intros Hx Hy H1 H2. to_ranks.
  destruct x as [[] | [] | | [] mx ex], y as [[] | [] | | [] my ey];
    cbn [is_nan rank lex_lt] in *; try discriminate; try reflexivity;
    try (exfalso; lia);
    assert (ex = ey) by lia; assert (mx = my) by lia; subst; reflexivity.
Qed.

Lemma ordinary_total (x y : float) :
  ordinary x = true -> ordinary y = true ->
  (x <? y)%f64 = false -> (y <? x)%f64 = true \/ x = y.
Proof.
  intros Hx Hy H. destruct (y <? x)%f64 eqn:E; [left; reflexivity | right].
  apply ordinary_eqb; try assumption.
  apply not_nan_trichotomy; try assumption.
  - destruct x as [[] | | |]; simpl in *; congruence.
  - destruct y as [[] | | |]; simpl in *; congruence.
Qed.

(** ** Sorting does not depend on the order of the input *)

Lemma insert_comm (x y : float) :
  ordinary x = true -> ordinary y = true ->
  forall acc,
    PySeq.insert x (PySeq.insert y acc) = PySeq.insert y (PySeq.insert x acc).
Proof.
  intros Hx Hy.
  assert ((x <? y)%f64 = false -> (y <? x)%f64 = false -> x = y) as Heq.
  { intros H1 H2. destruct (ordinary_total x y Hx Hy H1); congruence. }
  induction acc as [| z acc IH]; simpl.
  - destruct (x <? y)%f64 eqn:Exy, (y <? x)%f64 eqn:Eyx; try reflexivity.
    + rewrite (ltb_asym _ _ Exy) in Eyx. discriminate.
    + rewrite (Heq eq_refl eq_refl). reflexivity.
  - destruct (y <? z)%f64 eqn:Eyz, (x <? z)%f64 eqn:Exz; simpl;
      rewrite ?Eyz, ?Exz;
      destruct (x <? y)%f64 eqn:Exy, (y <? x)%f64 eqn:Eyx;
      try reflexivity;
      try (rewrite (ltb_asym _ _ Exy) in Eyx; discriminate);
      try (rewrite (Heq eq_refl eq_refl); reflexivity);
      try (rewrite (ltb_trans _ _ _ Exy Eyz) in Exz; discriminate);
      try (rewrite (ltb_trans _ _ _ Eyx Exz) in Eyz; discriminate);
      try (rewrite IH; reflexivity).
Qed.

Lemma fold_insert_permutation (l l' : list float) :
  Permutation l l' ->
  Forall (fun x => ordinary x = true) l ->
  forall acc,
    fold_left (fun acc x => PySeq.insert x acc) l acc =
    fold_left (fun acc x => PySeq.insert x acc) l' acc.
Proof.
  induction 1 as [| x l l' Hp IH | x y l | l l' l'' Hp1 IH1 Hp2 IH2];
    intros Hall acc; simpl.
  - reflexivity.
  - apply IH. inversion Hall; assumption.
  - inversion Hall as [| ? ? Hy Hall']; subst.
    inversion Hall' as [| ? ? Hx _]; subst.
    rewrite insert_comm by assumption. reflexivity.
  - rewrite IH1 by assumption. apply IH2.
    eapply Permutation_Forall; eassumption.
Qed.

Lemma sorted_permutation_eq (l l' : list float) :
  Permutation l l' ->
  Forall (fun x => ordinary x = true) l ->
  PySeq.sorted l = PySeq.sorted l'.
Proof. intros. apply fold_insert_permutation; assumption. Qed.

(** ** Keys that neither is smaller than the other *)

Lemma tuple_lt_total (a b : list float) :
  List.length a = List.length b ->
  Forall (fun x => ordinary x = true) a ->
  Forall (fun x => ordinary x = true) b ->
  PySeq.tuple_lt a b = false -> PySeq.tuple_lt b a = false -> a = b.
Proof.
  revert b. induction a as [| x a IH]; intros [| y b] Hl Ha Hb; simpl;
    try discriminate; try reflexivity.
  inversion Ha as [| ? ? Hx Ha']; inversion Hb as [| ? ? Hy Hb']; subst.
  rewrite (eqb_sym y x).
  destruct (x == y)%f64 eqn:E; intros H1 H2.
  - apply ordinary_eqb in E; try assumption. subst.
    f_equal. apply IH; try assumption. simpl in Hl. lia.
  - rewrite not_nan_trichotomy in E; try assumption; try discriminate.
    + destruct x as [[] | | |]; simpl in *; congruence.
    + destruct y as [[] | | |]; simpl in *; congruence.
Qed.

Lemma key_lt_total (k k' : key) :
  is_nan (fst (fst k)) = false -> is_nan (snd (fst k)) = false ->
  is_nan (fst (fst k')) = false -> is_nan (snd (fst k')) = false ->
  List.length (snd k) = List.length (snd k') ->
  Forall (fun x => ordinary x = true) (snd k) ->
  Forall (fun x => ordinary x = true) (snd k') ->
  key_lt k k' = false -> key_lt k' k = false -> snd k = snd k'.
Proof.
  destruct k as [[d s] t], k' as [[d' s'] t']. simpl.
  intros Hd Hs Hd' Hs' Hl Ht Ht'.
  rewrite (eqb_sym d' d), (eqb_sym s' s).
  destruct (d == d')%f64 eqn:Ed.
  - destruct (s == s')%f64 eqn:Es.
    + apply tuple_lt_total; assumption.
    + intros H1 H2.
      rewrite not_nan_trichotomy in Es; try assumption; discriminate.
  - intros H1 H2.
    rewrite not_nan_trichotomy in Ed; try assumption; discriminate.
Qed.

(** ** Permuted inputs *)

Lemma subseq_In {A : Type} (c l : list A) :
  subseq c l -> forall x, In x c -> In x l.
Proof.
  induction 1 as [| x c l _ IH | x c l _ IH]; intros y Hy; simpl in *; auto.
  destruct Hy as [-> | Hy]; auto.
Qed.

Lemma subseq_Forall {A : Type} (P : A -> Prop) (c l : list A) :
  subseq c l -> Forall P l -> Forall P c.
Proof.
  intros Hs Hl. rewrite Forall_forall in *. intros x Hx.
  apply Hl. eapply subseq_In; eassumption.
Qed.

(** A subsequence of a permuted list is a permutation of a subsequence of
    the list. *)
Lemma subseq_permutation {A : Type} (l l' : list A) :
  Permutation l l' ->
  forall c', subseq c' l' -> exists c, subseq c l /\ Permutation c c'.
Proof.
  induction 1 as [| x l l' Hp IH | x y l | l l' l'' Hp1 IH1 Hp2 IH2];
    intros c' Hc'.
  - exists c'. split; [assumption | reflexivity].
  - inversion Hc' as [| ? c0 ? H0 | ? ? ? H0]; subst.
    + destruct (IH _ H0) as (c & Hs & Hc).
      exists (x :: c). split; [constructor; assumption | auto].
    + destruct (IH _ H0) as (c & Hs & Hc).
      exists c. split; [constructor; assumption | assumption].
  - inversion Hc' as [| ? c0 ? H0 | ? ? ? H0]; subst.
    + inversion H0 as [| ? c1 ? H1 | ? ? ? H1]; subst.
      * exists (y :: x :: c1).
        split; [repeat constructor; assumption | apply perm_swap].
      * exists (x :: c0).
        split; [apply subseq_skip, subseq_take; assumption | reflexivity].
    + inversion H0 as [| ? c1 ? H1 | ? ? ? H1]; subst.
      * exists (y :: c1).
        split; [apply subseq_take, subseq_skip; assumption | reflexivity].
      * exists c'.
        split; [repeat apply subseq_skip; assumption | reflexivity].
  - destruct (IH2 _ Hc') as (c1 & Hs1 & Hc1).
    destruct (IH1 _ Hs1) as (c & Hs & Hc).
    exists c. split; [assumption | etransitivity; eassumption].
Qed.

Lemma comprehension_permutation {A B : Type} (f : A -> result B)
      (l l' : list A) :
  Permutation l l' ->
  forall bs, PySeq.comprehension f l = inr bs ->
             exists bs', PySeq.comprehension f l' = inr bs' /\
                         Permutation bs bs'.
Proof.
  induction 1 as [| x l l' Hp IH | x y l | l l' l'' Hp1 IH1 Hp2 IH2];
    intros bs Hbs; simpl in *.
  - exists bs. split; [assumption | reflexivity].
  - destruct (f x) as [e | b]; [discriminate |].
    destruct (PySeq.comprehension f l) as [e | bs0]; [discriminate |].
    injection Hbs as <-.
    destruct (IH _ eq_refl) as (bs' & -> & Hperm).
    exists (b :: bs'). split; [reflexivity | auto].
  - destruct (f y) as [e | b]; [discriminate |].
    destruct (f x) as [e | b']; [discriminate |].
    destruct (PySeq.comprehension f l) as [e | bs0]; [discriminate |].
    injection Hbs as <-.
    exists (b' :: b :: bs0). split; [reflexivity | apply perm_swap].
  - destruct (IH1 _ Hbs) as (bs1 & H1 & Hperm1).
    destruct (IH2 _ H1) as (bs2 & H2 & Hperm2).
    exists bs2. split; [assumption | etransitivity; eassumption].
Qed.

Lemma key_of_permutation (summation : PySum.algorithm)
      (values c c' : list float) :
  Forall (fun x => ordinary x = true) values ->
  sum_order_free summation values ->
  subseq c values -> List.length c = 3 -> Permutation c c' ->
  key_of summation c' = key_of summation c.
Proof.
  intros Hord Hsum Hs Hl Hp. unfold key_of.
  rewrite (Hsum c c' Hs Hl Hp).
  rewrite (@sorted_permutation_eq c c' Hp) by (eapply subseq_Forall; eassumption).
  reflexivity.
Qed.

Lemma combination_key_facts (summation : PySum.algorithm)
      (values c : list float) :
  Forall (fun x => ordinary x = true) values ->
  In c (PySeq.combinations values 3) ->
  is_nan (fst (fst (key_of summation c))) = false /\
  is_nan (snd (fst (key_of summation c))) = false /\
  List.length (snd (key_of summation c)) = 3 /\
  Forall (fun x => ordinary x = true) (snd (key_of summation c)).
Proof.
  intros Hord Hin. apply combinations_subseq in Hin. destruct Hin as [Hs Hl].
  pose proof (subseq_Forall Hs Hord) as Hc.
  assert (is_nan (PySum.sum summation c) = false) as Hsum.
  { apply sum_not_nan. eapply Forall_impl; [| exact Hc].
    intros x. apply ordinary_finite. }
  destruct (key_not_nan summation c Hsum) as [H1 H2].
  repeat split; try assumption; unfold key_of; cbn [snd].
  - rewrite (Permutation_length (sorted_is_permutation c)). exact Hl.
  - eapply Permutation_Forall; [symmetry; apply sorted_is_permutation | exact Hc].
Qed.

(** On ordinary values with order-free sums, the search on a permutation
    of the input returns a permutation of the same triple, with the same
    sum. *)
Lemma best_comb_permutation (summation : PySum.algorithm)
      (values values' : list float) :
  Permutation values values' ->
  3 <= List.length values ->
  Forall (fun x => ordinary x = true) values ->
  sum_order_free summation values ->
  exists best best',
    best_comb summation values = Some best /\
    best_comb summation values' = Some best' /\
    List.length best = 3 /\
    Permutation best best' /\
    PySum.sum summation best' = PySum.sum summation best.
Proof.
  intros Hperm Hlen Hord Hsum.
  assert (3 <= List.length values') as Hlen'
      by (rewrite <- (Permutation_length Hperm); exact Hlen).
  assert (Forall (fun x => ordinary x = true) values') as Hord'
      by (eapply Permutation_Forall; eassumption).
  destruct (@best_comb_minimal summation values Hlen) as (best & Hb & Hin & Hmin).
  destruct (@best_comb_minimal summation values' Hlen') as (best' & Hb' & Hin' & Hmin').
  exists best, best'.
  pose proof Hin as Hin0. pose proof Hin' as Hin0'.
  apply combinations_subseq in Hin0, Hin0'.
  destruct Hin0 as [Hs Hl], Hin0' as [Hs' Hl'].
  (* best' is a permutation of a combination c of values *)
  destruct (subseq_permutation Hperm Hs') as (c & Hcs & Hcp).
  assert (List.length c = 3) as Hcl
      by (rewrite (Permutation_length Hcp); exact Hl').
  assert (key_of summation best' = key_of summation c) as Hk'
      by (apply (@key_of_permutation summation values c best'); assumption).
  assert (key_lt (key_of summation best') (key_of summation best) = false) as H1.
  { rewrite Hk'. apply Hmin, combinations_subseq. auto. }
  (* best is a permutation of a combination d of values' *)
  destruct (subseq_permutation (Permutation_sym Hperm) Hs) as (d & Hds & Hdp).
  assert (List.length d = 3) as Hdl
      by (rewrite (Permutation_length Hdp); exact Hl).
  assert (key_of summation d = key_of summation best) as Hk.
  { apply (@key_of_permutation summation values best d); try assumption.
    symmetry. exact Hdp. }
  assert (key_lt (key_of summation best) (key_of summation best') = false) as H2.
  { rewrite <- Hk. apply Hmin', combinations_subseq. auto. }
  destruct (@combination_key_facts summation values best Hord Hin) as (N1 & N2 & L & O).
  destruct (@combination_key_facts summation values' best' Hord' Hin') as (N1' & N2' & L' & O').
  assert (PySeq.sorted best = PySeq.sorted best') as Hsorted.
  { apply (@key_lt_total (key_of summation best) (key_of summation best'));
      try assumption. congruence. }
  assert (Permutation best best') as Hbb.
  { rewrite <- (sorted_is_permutation best), Hsorted.
    apply sorted_is_permutation. }
  repeat split; try assumption. apply Hsum; assumption.
Qed.

(** C9, as stated, fails: the tokens [9007199254740992 -1 1e32] and their
    permutation [9007199254740992 1e32 -1] give two different exact means,
    under either summation algorithm (printed with twelve decimals they
    are 33333333333333333620854192340992.000000000000 and
    33333333333333342628053447081984.000000000000). *)
Lemma permuted_tokens_change_the_mean :
  let argv := ["9007199254740992"; "-1"; "1e32"]%string in
  let argv' := ["9007199254740992"; "1e32"; "-1"]%string in
  let m := S754_finite false 7401486830834377 52 in
  let m' := S754_finite false 7401486830834379 52 in
  Permutation argv argv' /\
  (nth 1 (out (run (main JsonNumbers.loads PySum.LeftToRight (script :: argv))))
       (Line "" [])
   = Line mean_template [FFloat m] /\
   nth 1 (out (run (main JsonNumbers.loads PySum.LeftToRight (script :: argv'))))
       (Line "" [])
   = Line mean_template [FFloat m']) /\
  (nth 1 (out (run (main JsonNumbers.loads PySum.Compensated (script :: argv))))
       (Line "" [])
   = Line mean_template [FFloat m] /\
   nth 1 (out (run (main JsonNumbers.loads PySum.Compensated (script :: argv'))))
       (Line "" [])
   = Line mean_template [FFloat m']) /\
  m <> m'.
Proof.
  cbv zeta. split; [constructor; apply perm_swap |].
  split; [split; vm_compute; reflexivity |].
  split; [split; vm_compute; reflexivity | discriminate].
Qed.

(** C9, amended.  When the values are finite doubles other than [-0.0]
    and the sum of any three of them is the same in every order of
    addition, the runs on the tokens and on a permutation of the tokens end
    with the same status and either both print nothing or print the same
    three values up to their order, the same exact mean and the same
    ceiling-rounded mean. *)
Theorem permuted_input_same_report :
  forall (json_loads : string -> result (list json))
         (summation : PySum.algorithm) (name name' : string)
         (argv argv' : list string) (values : list float),
    Permutation argv argv' ->
    PySeq.comprehension PyFloat.float_of_str argv = inr values ->
    3 <= List.length values ->
    Forall (fun x => ordinary x = true) values ->
    sum_order_free summation values ->
    let o := run (main json_loads summation (name :: argv)) in
    let o' := run (main json_loads summation (name' :: argv')) in
    status o = status o' /\
    ((out o = [] /\ out o' = []) \/
     exists a b c a' b' c' m mc,
       out o = [Line triple_template [FFloat a; FFloat b; FFloat c];
                Line mean_template [FFloat m];
                Line ceiled_template [FFloat mc]] /\
       out o' = [Line triple_template [FFloat a'; FFloat b'; FFloat c'];
                 Line mean_template [FFloat m];
                 Line ceiled_template [FFloat mc]] /\
       Permutation [a; b; c] [a'; b'; c']).
Proof.
  intros json_loads summation name name' argv argv' values
         Hperm Hparse Hlen Hord Hsum o o'. subst o o'.
  destruct (comprehension_permutation PyFloat.float_of_str Hperm Hparse)
    as (values' & Hparse' & Hvalues).
  pose proof (comprehension_length _ _ Hparse) as Hn.
  pose proof (comprehension_length _ _ Hparse') as Hn'.
  pose proof (Permutation_length Hvalues) as Hnn.
  rewrite !run_main. cbn [skipn]. rewrite Hparse, Hparse'.
  destruct (Nat.ltb_spec (List.length (name :: argv)) 4) as [Hlt | _];
    [simpl in Hlt; lia |].
  destruct (Nat.ltb_spec (List.length (name' :: argv')) 4) as [Hlt | _];
    [simpl in Hlt; lia |].
  destruct (@best_comb_permutation summation values values' Hvalues Hlen Hord Hsum)
    as (best & best' & -> & -> & Hl & Hbb & Hs).
  pose proof (Permutation_length Hbb) as Hl'. rewrite Hl in Hl'.
  destruct best as [| a [| b [| c [| ? ?]]]]; try discriminate.
  destruct best' as [| a' [| b' [| c' [| ? ?]]]]; try discriminate.
  unfold run, bind. rewrite !warn_out_of_range_runs.
  unfold report, bind, uncaught, ret, print. rewrite Hs.
  destruct (ceil_to_thousandth (PySum.sum summation [a; b; c] / K_float)%f64)
    as [e | mc]; cbn.
  - split; [reflexivity | left; split; reflexivity].
  - split; [reflexivity | right].
    exists a, b, c, a', b', c',
      (PySum.sum summation [a; b; c] / K_float)%f64, mc.
    repeat split. exact Hbb.
Qed.

(** ** Checking that sums are order-free *)

Lemma same_eq (x y : float) : same x y = true -> x = y.
Proof.
  destruct x as [s | s | | s m e], y as [s' | s' | | s' m' e']; simpl;
    try discriminate; try reflexivity.
  - intros H. apply eqb_prop in H. congruence.
  - intros H. apply eqb_prop in H. congruence.
  - intros H. apply andb_prop in H. destruct H as [H He].
    apply andb_prop in H. destruct H as [Hs Hm].
    apply eqb_prop in Hs. apply Pos.eqb_eq in Hm. apply Z.eqb_eq in He.
    congruence.
Qed.

Lemma permutation_orders {A : Type} (x y z : A) (l : list A) :
  Permutation [x; y; z] l -> In l (orders [x; y; z]).
Proof.
  intros H. pose proof (Permutation_length H) as Hl.
  destruct l as [| p [| q [| r [| ? ?]]]]; try discriminate.
  assert (In x [p; q; r]) as Hx
      by (eapply Permutation_in; [exact H | simpl; auto]).
  simpl in Hx. destruct Hx as [-> | [-> | [-> | []]]].
  - apply Permutation_cons_inv in H.
    apply Permutation_length_2_inv in H. destruct H as [H | H];
      injection H as <- <-; simpl; auto.
  - apply (@Permutation_cons_app_inv _ [y; z] [p] [r] x) in H.
    apply Permutation_length_2_inv in H. destruct H as [H | H];
      injection H as <- <-; simpl; auto 10.
  - apply (@Permutation_cons_app_inv _ [y; z] [p; q] [] x) in H.
    apply Permutation_length_2_inv in H. destruct H as [H | H];
      injection H as <- <-; simpl; auto 10.
Qed.

Lemma sum_order_free_check (summation : PySum.algorithm)
      (values : list float) :
  sum_order_free_b summation values = true -> sum_order_free summation values.
Proof.
  unfold sum_order_free_b, sum_order_free. intros H c c' Hs Hl Hp.
  rewrite forallb_forall in H.
  assert (In c (PySeq.combinations values 3)) as Hin
      by (apply combinations_subseq; auto).
  specialize (H c Hin). rewrite forallb_forall in H.
  apply same_eq, H.
  destruct c as [| x [| y [| z [| ? ?]]]]; try discriminate.
  apply permutation_orders, Hp.
Qed.

Lemma permuted_input_same_report_witness :
  let o := run (main JsonNumbers.loads PySum.LeftToRight
                     [script; "1.0"; "7.0"; "13.0"; "2.5"]%string) in
  let o' := run (main JsonNumbers.loads PySum.LeftToRight
                      [script; "7.0"; "1.0"; "13.0"; "2.5"]%string) in
  status o = status o' /\
  ((out o = [] /\ out o' = []) \/
   exists a b c a' b' c' m mc,
     out o = [Line triple_template [FFloat a; FFloat b; FFloat c];
              Line mean_template [FFloat m];
              Line ceiled_template [FFloat mc]] /\
     out o' = [Line triple_template [FFloat a'; FFloat b'; FFloat c'];
               Line mean_template [FFloat m];
               Line ceiled_template [FFloat mc]] /\
     Permutation [a; b; c] [a'; b'; c']).
Proof.
  apply (@permuted_input_same_report JsonNumbers.loads PySum.LeftToRight
           script script
           ["1.0"; "7.0"; "13.0"; "2.5"]%string
           ["7.0"; "1.0"; "13.0"; "2.5"]%string
           [of_Z 1; of_Z 7; of_Z 13; ratio 25 10]).
  - apply perm_swap.
  - vm_compute. reflexivity.
  - simpl. lia.
  - repeat constructor.
  - apply sum_order_free_check. vm_compute. reflexivity.
Defined.

(** ** Why the amended statement asks for ordinary values

    With a NaN among the values the first combination met keeps its place
    when its key is NaN, and equal keys that differ in the sign of a zero
    are told apart by their position only. *)
Example nan_makes_the_search_order_dependent :
  forall summation,
    best_comb summation [nan; of_Z 1; of_Z 2; of_Z 3]
    = Some [nan; of_Z 1; of_Z 2] /\
    best_comb summation [of_Z 1; of_Z 2; of_Z 3; nan]
    = Some [of_Z 1; of_Z 2; of_Z 3].
Proof. intros []; split; vm_compute; reflexivity. Qed.

Example signed_zero_makes_the_search_order_dependent :
  forall summation,
    best_comb summation [zero; S754_zero true; of_Z 7; of_Z 14]
    = Some [zero; of_Z 7; of_Z 14] /\
    best_comb summation [S754_zero true; zero; of_Z 7; of_Z 14]
    = Some [S754_zero true; of_Z 7; of_Z 14].
Proof. intros []; split; vm_compute; reflexivity. Qed.

(* ================================================================== *)
(** * Further properties of the script *)
(* ================================================================== *)

(** ** What the parser returns *)

Lemma comprehension_Forall2 {A B : Type} (f : A -> result B) :
  forall (l : list A) (bs : list B),
    PySeq.comprehension f l = inr bs <-> Forall2 (fun a b => f a = inr b) l bs.
Proof.
  induction l as [| a l IH]; intros bs; simpl.
  - split.
    + intros H. injection H as <-. constructor.
    + intros H. inversion H. reflexivity.
  - split.
    + destruct (f a) as [e | b] eqn:Ha; [discriminate |].
      destruct (PySeq.comprehension f l) as [e | bs'] eqn:Hl; [discriminate |].
      intros H. injection H as <-. constructor; [exact Ha | apply IH; reflexivity].
    + intros H. inversion H as [| ? b ? bs' Ha Hl]; subst.
      rewrite Ha. apply IH in Hl. rewrite Hl. reflexivity.
Qed.

Lemma comprehension_first_failure {A B : Type} (f : A -> result B)
      (good : list A) (bad : A) (rest : list A) (e : exn) :
  Forall (fun a => exists b, f a = inr b) good ->
  f bad = inl e ->
  PySeq.comprehension f (good ++ bad :: rest) = inl e.
Proof.
  induction 1 as [| a good [b Ha] _ IH]; intros Hbad; simpl.
  - rewrite Hbad. reflexivity.
  - rewrite Ha, (IH Hbad). reflexivity.
Qed.

(** In the JSON form the parser returns exactly the floats of the decoded
    items, when the decoder returns and [float] accepts every item, and it
    leaves the console alone; every other outcome is the exit with the
    "Could not parse JSON array" message.  The token branch is not tried. *)
Theorem json_form_returns_or_exits :
  forall (json_loads : string -> result (list json)) (a : string) (c : console),
    json_form [a] = true ->
    (forall values c',
        parse_values json_loads [a] c = (Return values, c') <->
        c' = c /\
        exists vals, json_loads (Str.strip a) = inr vals /\
                     Forall2 (fun v x => float_of_json v = inr x) vals values) /\
    (forall n c',
        parse_values json_loads [a] c = (Exit n, c') ->
        n = 1%Z /\
        exists e,
          c' = Console (stdout c) (stderr c ++ [Line json_error_template [FExn e]]) /\
          (json_loads (Str.strip a) = inl e \/
           exists vals, json_loads (Str.strip a) = inr vals /\
                        PySeq.comprehension float_of_json vals = inl e)).
Proof.
  intros json_loads a c Hform.
  unfold json_form in Hform. cbn [List.length Nat.eqb hd andb] in Hform.
  unfold parse_values. cbn [List.length Nat.eqb hd]. rewrite Hform.
  unfold parse_json.
  destruct (json_loads (Str.strip a)) as [e | vals] eqn:Hj.
  - split.
    + intros values c'. split; [discriminate |].
      intros (_ & vals & Hv & _). discriminate.
    + intros n c' H. injection H as <- <-. split; [reflexivity |]. eauto.
  - destruct (PySeq.comprehension float_of_json vals) as [e | xs] eqn:Hc.
    + split.
      * intros values c'. split; [discriminate |].
        intros (_ & vals' & Hv & HF). injection Hv as <-.
        apply comprehension_Forall2 in HF. congruence.
      * intros n c' H. injection H as <- <-. split; [reflexivity |].
        exists e. split; [reflexivity |]. right. eauto.
    + split.
      * intros values c'. split.
        -- intros H. injection H as <- <-. split; [reflexivity |].
           exists vals. split; [reflexivity |].
           apply comprehension_Forall2. exact Hc.
        -- intros (-> & vals' & Hv & HF). injection Hv as <-.
           apply comprehension_Forall2 in HF.
           rewrite HF in Hc. injection Hc as <-. reflexivity.
      * intros n c'. discriminate.
Qed.

Lemma json_form_returns_or_exits_witness :
  (forall values c',
      parse_values JsonNumbers.loads ["[1.0, 2.0]"%string] (Console [] [])
      = (Return values, c') <->
      c' = Console [] [] /\
      exists vals, JsonNumbers.loads (Str.strip "[1.0, 2.0]") = inr vals /\
                   Forall2 (fun v x => float_of_json v = inr x) vals values) /\
  (forall n c',
      parse_values JsonNumbers.loads ["[1.0, 2.0]"%string] (Console [] [])
      = (Exit n, c') ->
      n = 1%Z /\
      exists e,
        c' = Console (stdout (Console [] []))
                     (stderr (Console [] []) ++ [Line json_error_template [FExn e]]) /\
        (JsonNumbers.loads (Str.strip "[1.0, 2.0]") = inl e \/
         exists vals, JsonNumbers.loads (Str.strip "[1.0, 2.0]") = inr vals /\
                      PySeq.comprehension float_of_json vals = inl e)).
Proof.
  apply (@json_form_returns_or_exits JsonNumbers.loads "[1.0, 2.0]"%string
           (Console [] [])).
  reflexivity.
Defined.

Lemma float_of_str_inr (a : string) (x : float) :
  PyFloat.float_of_str a = inr x <-> PyFloat.of_string a = Some x.
Proof.
  unfold PyFloat.float_of_str. destruct (PyFloat.of_string a); split;
    intros H; try discriminate; injection H as <-; reflexivity.
Qed.

(** Outside the JSON form the parser returns exactly when [float] accepts
    every argument; the values are the floats of the arguments, one for
    one and in their order, and nothing is written. *)
Theorem tokens_parse_one_for_one :
  forall (json_loads : string -> result (list json)) (argv : list string)
         (c : console),
    json_form argv = false ->
    forall values c',
      parse_values json_loads argv c = (Return values, c') <->
      c' = c /\ Forall2 (fun a x => PyFloat.of_string a = Some x) argv values.
Proof.
  intros json_loads argv c Hform values c'.
  rewrite parse_values_not_json_form by assumption. unfold parse_tokens.
  assert (Forall2 (fun a x => PyFloat.of_string a = Some x) argv values <->
          PySeq.comprehension PyFloat.float_of_str argv = inr values) as Hiff.
  { rewrite comprehension_Forall2. split; intros H;
      (eapply Forall2_impl; [| exact H]); intros a x; apply float_of_str_inr. }
  destruct (PySeq.comprehension PyFloat.float_of_str argv) as [e | vs] eqn:E.
  - split; [discriminate |]. intros [_ H]. apply Hiff in H. discriminate.
  - split.
    + intros H. injection H as <- <-. split; [reflexivity |].
      apply Hiff. reflexivity.
    + intros [-> H]. apply Hiff in H. injection H as <-. reflexivity.
Qed.

Lemma tokens_parse_one_for_one_witness :
  parse_values JsonNumbers.loads ["1.5"; " 7 "; "1e1"]%string (Console [] [])
  = (Return [ratio 3 2; of_Z 7; of_Z 10], Console [] []) <->
  Console [] [] = Console [] [] /\
  Forall2 (fun a x => PyFloat.of_string a = Some x)
          ["1.5"; " 7 "; "1e1"]%string [ratio 3 2; of_Z 7; of_Z 10].
Proof.
  apply (@tokens_parse_one_for_one JsonNumbers.loads
           ["1.5"; " 7 "; "1e1"]%string (Console [] [])).
  reflexivity.
Defined.

(** With three arguments or more, the run that meets an argument [float]
    rejects ends with the message that carries the first such argument;
    the arguments after it are not looked at and no range warning is
    printed for the ones before it. *)
Theorem first_bad_token_is_reported :
  forall (json_loads : string -> result (list json))
         (summation : PySum.algorithm) (name : string)
         (good : list string) (bad : string) (rest : list string),
    3 <= List.length (good ++ bad :: rest) ->
    Forall (fun a => PyFloat.of_string a <> None) good ->
    PyFloat.of_string bad = None ->
    run (main json_loads summation (name :: good ++ bad :: rest)) =
    Outcome 1 []
      [Line number_error_template [FExn (CannotConvertString bad)]].
Proof.
  intros json_loads summation name good bad rest Hlen Hgood Hbad.
  rewrite run_main.
  destruct (Nat.ltb_spec (List.length (name :: good ++ bad :: rest)) 4)
    as [Hlt | _]; [simpl in Hlt; lia |].
  cbn [skipn].
  rewrite (@comprehension_first_failure _ _ PyFloat.float_of_str good bad rest
             (CannotConvertString bad)).
  - reflexivity.
  - eapply Forall_impl; [| exact Hgood]. intros a Ha. cbv beta in Ha.
    unfold PyFloat.float_of_str. destruct (PyFloat.of_string a) as [x |];
      [eauto | congruence].
  - unfold PyFloat.float_of_str. rewrite Hbad. reflexivity.
Qed.

Lemma first_bad_token_is_reported_witness :
  run (main JsonNumbers.loads PySum.LeftToRight
            (script :: ["99.0"] ++ "seven"%string :: ["7.0"; "x"])%string) =
  Outcome 1 []
    [Line number_error_template [FExn (CannotConvertString "seven")]].
Proof.
  apply (@first_bad_token_is_reported JsonNumbers.loads PySum.LeftToRight script
           ["99.0"%string] "seven"%string ["7.0"; "x"]%string).
  - simpl. lia.
  - repeat constructor. vm_compute. discriminate.
  - reflexivity.
Defined.

(** ** What a run on numbers reports *)

(** When every one of the three or more arguments is a number, the run is
    decided by the selected triple: the triple is made of three of the
    parsed values in their input order, the mean printed is the sum of the
    printed triple divided by 3 and the last line is the ceiling of the
    printed mean; when that ceiling cannot be taken the run prints no
    report and ends with a traceback.  Standard error starts with the
    range warning, if any. *)
Theorem run_on_numbers :
  forall (json_loads : string -> result (list json))
         (summation : PySum.algorithm) (name : string)
         (argv : list string) (values : list float),
    3 <= List.length argv ->
    PySeq.comprehension PyFloat.float_of_str argv = inr values ->
    exists a b c,
      best_comb summation values = Some [a; b; c] /\
      subseq [a; b; c] values /\
      run (main json_loads summation (name :: argv)) =
      match ceil_to_thousandth (PySum.sum summation [a; b; c] / of_Z 3)%f64 with
      | inr mean_ceiled =>
          Outcome 0
            [Line triple_template [FFloat a; FFloat b; FFloat c];
             Line mean_template
                  [FFloat (PySum.sum summation [a; b; c] / of_Z 3)%f64];
             Line ceiled_template [FFloat mean_ceiled]]
            (warning_lines values)
      | inl e => Outcome 1 [] (warning_lines values ++ [traceback e])
      end.
Proof.
  intros json_loads summation name argv values Hlen Hparse.
  pose proof (comprehension_length _ _ Hparse) as Hn.
  destruct (@best_comb_minimal summation values ltac:(lia))
    as (best & Hb & Hin & _).
  apply combinations_subseq in Hin. destruct Hin as [Hs Hl].
  destruct best as [| a [| b [| c [| ? ?]]]]; try discriminate.
  exists a, b, c. split; [exact Hb |]. split; [exact Hs |].
  rewrite run_main.
  destruct (Nat.ltb_spec (List.length (name :: argv)) 4) as [Hlt | _];
    [simpl in Hlt; lia |].
  cbn [skipn]. rewrite Hparse.
  unfold run, bind. rewrite warn_out_of_range_runs, warning_lines_filter, Hb.
  unfold report, bind, uncaught, ret, print.
  change K_float with (of_Z 3).
  destruct (ceil_to_thousandth (PySum.sum summation [a; b; c] / of_Z 3)%f64);
    reflexivity.
Qed.

Lemma run_on_numbers_witness :
  exists a b c,
    best_comb PySum.LeftToRight scenario_2_values = Some [a; b; c] /\
    subseq [a; b; c] scenario_2_values /\
    run (main JsonNumbers.loads PySum.LeftToRight
              (script :: ["1.356"; "7.522"; "5.498"; "9.1"; "2.0"]%string)) =
    match ceil_to_thousandth
            (PySum.sum PySum.LeftToRight [a; b; c] / of_Z 3)%f64 with
    | inr mean_ceiled =>
        Outcome 0
          [Line triple_template [FFloat a; FFloat b; FFloat c];
           Line mean_template
                [FFloat (PySum.sum PySum.LeftToRight [a; b; c] / of_Z 3)%f64];
           Line ceiled_template [FFloat mean_ceiled]]
          (warning_lines scenario_2_values)
    | inl e => Outcome 1 [] (warning_lines scenario_2_values ++ [traceback e])
    end.
Proof.
  apply (@run_on_numbers JsonNumbers.loads PySum.LeftToRight script
           ["1.356"; "7.522"; "5.498"; "9.1"; "2.0"]%string scenario_2_values).
  - simpl. lia.
  - vm_compute. reflexivity.
Defined.

(** No three of the values have a mean strictly closer to 7.0 than the
    selected three; among those whose mean is as close, none has a sum
    strictly closer to 21.0. *)
Theorem no_triple_is_closer :
  forall (summation : PySum.algorithm) (values : list float),
    3 <= List.length values ->
    exists best,
      best_comb summation values = Some best /\
      forall comb,
        subseq comb values -> List.length comb = 3 ->
        let diff c := abs (PySum.sum summation c / of_Z 3 - of_Z 7)%f64 in
        let off c := abs (PySum.sum summation c - of_Z 21)%f64 in
        (diff comb <? diff best)%f64 = false /\
        ((diff comb == diff best)%f64 = true ->
         (off comb <? off best)%f64 = false).
Proof.
  intros summation values Hlen.
  destruct (@best_comb_minimal summation values Hlen) as (best & Hb & _ & Hmin).
  exists best. split; [exact Hb |].
  intros comb Hs Hl diff off.
  assert (In comb (PySeq.combinations values 3)) as Hin
      by (apply combinations_subseq; auto).
  specialize (Hmin comb Hin). unfold key_of in Hmin.
  rewrite target_sum in Hmin. change K_float with (of_Z 3) in Hmin.
  change TARGET_MEAN with (of_Z 7) in Hmin.
  cbn [key_lt] in Hmin. fold (diff comb) (diff best) (off comb) (off best) in Hmin.
  destruct (diff comb == diff best)%f64 eqn:Ed.
  - split.
    + destruct (diff comb <? diff best)%f64 eqn:El; [| reflexivity].
      rewrite (ltb_not_eqb _ _ El) in Ed. discriminate.
    + intros _. destruct (off comb <? off best)%f64 eqn:El; [| reflexivity].
      rewrite (ltb_not_eqb _ _ El) in Hmin. exact Hmin.
  - split; [exact Hmin | discriminate].
Qed.

Lemma no_triple_is_closer_witness :
  exists best,
    best_comb PySum.Compensated scenario_2_values = Some best /\
    forall comb,
      subseq comb scenario_2_values -> List.length comb = 3 ->
      let diff c := abs (PySum.sum PySum.Compensated c / of_Z 3 - of_Z 7)%f64 in
      let off c := abs (PySum.sum PySum.Compensated c - of_Z 21)%f64 in
      (diff comb <? diff best)%f64 = false /\
      ((diff comb == diff best)%f64 = true ->
       (off comb <? off best)%f64 = false).
Proof.
  apply (@no_triple_is_closer PySum.Compensated scenario_2_values).
  simpl. lia.
Defined.

(** ** Ties keep the earliest combination *)

Lemma tuple_lt_neg_trans (a b c : list float) :
  List.length a = List.length b -> List.length c = List.length b ->
  Forall (fun x => is_nan x = false) a ->
  Forall (fun x => is_nan x = false) b ->
  PySeq.tuple_lt c b = true -> PySeq.tuple_lt a b = false ->
  PySeq.tuple_lt c a = true.
Proof.
  revert b c. induction a as [| x a IH]; intros [| y b] [| z c] La Lc Ha Hb;
    simpl in *; try discriminate.
  inversion Ha as [| ? ? Hx Ha']; inversion Hb as [| ? ? Hy Hb']; subst.
  assert ((x == y)%f64 = false -> (x <? y)%f64 = false -> (y <? x)%f64 = true)
    as Hgt.
  { intros E1 E2. destruct (y <? x)%f64 eqn:E3; [reflexivity |].
    rewrite (not_nan_trichotomy x y Hx Hy E2 E3) in E1. discriminate. }
  destruct (z == y)%f64 eqn:Ezy, (x == y)%f64 eqn:Exy; intros H1 H2.
  - rewrite eqb_sym in Exy. rewrite (eqb_trans _ _ _ Ezy Exy).
    apply (IH b c); auto.
  - pose proof (eqb_ltb _ _ _ Ezy (Hgt eq_refl H2)) as Hzx.
    rewrite (ltb_not_eqb _ _ Hzx). exact Hzx.
  - rewrite eqb_sym in Exy. pose proof (ltb_eqb _ _ _ H1 Exy) as Hzx.
    rewrite (ltb_not_eqb _ _ Hzx). exact Hzx.
  - pose proof (ltb_trans _ _ _ H1 (Hgt eq_refl H2)) as Hzx.
    rewrite (ltb_not_eqb _ _ Hzx). exact Hzx.
Qed.

Lemma key_lt_neg_trans (a b c : key) :
  nan_free a -> nan_free b -> nan_free c ->
  key_lt c b = true -> key_lt a b = false -> key_lt c a = true.
Proof.
  intros [Ha La] [Hb Lb] [Hc Lc]. rewrite !key_lt_tuple.
  apply tuple_lt_neg_trans; try assumption; congruence.
Qed.

Lemma finite_combination_nan_free (summation : PySum.algorithm)
      (values c : list float) :
  Forall (fun x => is_finite x = true) values ->
  In c (PySeq.combinations values 3) ->
  nan_free (key_of summation c).
Proof.
  intros Hfin Hin. apply combinations_subseq in Hin. destruct Hin as [Hs Hl].
  pose proof (subseq_Forall Hs Hfin) as Hc.
  destruct (key_not_nan summation c (sum_not_nan summation Hc)) as [H1 H2].
  unfold nan_free, key_of in *. cbn [key_tuple fst snd] in *. split.
  - constructor; [exact H1 |]. constructor; [exact H2 |].
    eapply Permutation_Forall; [symmetry; apply sorted_is_permutation |].
    eapply Forall_impl; [| exact Hc]. intros x Hx.
    destruct x; simpl in *; congruence.
  - cbn [List.length].
    rewrite (Permutation_length (sorted_is_permutation c)), Hl. reflexivity.
Qed.

Lemma fold_first_best (summation : PySum.algorithm)
      (combs seen : list (list float)) (st : option (list float * key)) :
  (forall c, In c (seen ++ combs) -> nan_free (key_of summation c)) ->
  first_best summation seen st ->
  first_best summation (seen ++ combs) (fold_left (consider summation) combs st).
Proof.
  revert seen st. induction combs as [| c combs IH]; intros seen st Hfree H;
    simpl.
  - rewrite app_nil_r. exact H.
  - replace (seen ++ c :: combs) with ((seen ++ [c]) ++ combs) in *
      by (rewrite <- app_assoc; reflexivity).
    apply IH; [exact Hfree |].
    assert (forall e, In e (seen ++ [c]) -> nan_free (key_of summation e)) as Hf
        by (intros e He; apply Hfree, in_or_app; auto).
    unfold consider, first_best in *.
    destruct st as [[bc bk] |].
    + destruct H as (-> & before & after & -> & Hbefore & Hafter).
      destruct (key_lt (key_of summation c) (key_of summation bc)) eqn:E.
      * split; [reflexivity |].
        exists (before ++ bc :: after), []. split; [reflexivity |].
        split; [| contradiction].
        intros e He. apply in_app_or in He. destruct He as [He | [<- | He]].
        -- eapply key_lt_trans; [exact E | apply Hbefore, He].
        -- exact E.
        -- apply (@key_lt_neg_trans (key_of summation e) (key_of summation bc));
             try (apply Hf; rewrite !in_app_iff; simpl; auto); auto.
      * split; [reflexivity |].
        exists before, (after ++ [c]).
        split; [rewrite <- app_assoc; reflexivity |].
        split; [exact Hbefore |].
        intros e He. apply in_app_or in He. destruct He as [He | [<- | []]];
          auto.
    + subst seen. split; [reflexivity |].
      exists [], []. split; [reflexivity |]. split; contradiction.
Qed.

(** On finite values, the selected combination is the first one, in the
    order of [itertools.combinations], that no combination beats: all the
    combinations before it have a strictly larger key.  Among equal keys
    the earliest positions win. *)
Theorem earliest_minimal_triple_wins :
  forall (summation : PySum.algorithm) (values : list float),
    3 <= List.length values ->
    Forall (fun x => is_finite x = true) values ->
    exists before best after,
      PySeq.combinations values 3 = before ++ best :: after /\
      best_comb summation values = Some best /\
      (forall c, In c before ->
                 key_lt (key_of summation best) (key_of summation c) = true) /\
      (forall c, In c after ->
                 key_lt (key_of summation c) (key_of summation best) = false).
Proof.
  intros summation values Hlen Hfin.
  pose proof (@fold_first_best summation (PySeq.combinations values K) [] None)
    as H.
  cbn [app] in H.
  specialize (H (fun c Hc => @finite_combination_nan_free summation values c Hfin Hc)
                eq_refl).
  fold (search summation values) in H. unfold best_comb.
  unfold first_best in H.
  destruct (search summation values) as [[best bk] |].
  - destruct H as (_ & before & after & Heq & Hb & Ha).
    exists before, best, after. auto.
  - exfalso.
    pose proof (combinations_length values K) as Hc.
    pose proof (@choose_pos (List.length values) K Hlen) as Hp.
    rewrite H in Hc. simpl in Hc. lia.
Qed.

Lemma earliest_minimal_triple_wins_witness :
  exists before best after,
    PySeq.combinations [of_Z 7; of_Z 7; of_Z 7; of_Z 7] 3
    = before ++ best :: after /\
    best_comb PySum.LeftToRight [of_Z 7; of_Z 7; of_Z 7; of_Z 7] = Some best /\
    (forall c, In c before ->
               key_lt (key_of PySum.LeftToRight best)
                      (key_of PySum.LeftToRight c) = true) /\
    (forall c, In c after ->
               key_lt (key_of PySum.LeftToRight c)
                      (key_of PySum.LeftToRight best) = false).
Proof.
  apply (@earliest_minimal_triple_wins PySum.LeftToRight
           [of_Z 7; of_Z 7; of_Z 7; of_Z 7]).
  - simpl. lia.
  - repeat constructor.
Defined.

(** ** When the ceiling fails *)

Lemma mul_finite_not_nan (x : float) (s : bool) (m : positive) (e : Z) :
  is_nan x = false -> is_nan (x * S754_finite s m e)%f64 = false.
Proof.
  destruct x as [[] | [] | | sx mx ex]; simpl; intros; try discriminate;
    try reflexivity.
  apply binary_round_aux_not_nan. lia.
Qed.

Lemma thousand_finite : thousand = S754_finite false 8796093022208000 (-43).
Proof. vm_compute. reflexivity. Qed.

(** [ceil_to_thousandth] raises the [ValueError] of [math.ceil] exactly on
    NaN and its [OverflowError] on the infinities; when it returns, its
    argument was finite and the result is not NaN. *)
Theorem ceil_to_thousandth_failures :
  forall x : float,
    (ceil_to_thousandth x = inl CannotConvertNaN <-> is_nan x = true) /\
    (is_nan x = false -> is_finite x = false ->
     ceil_to_thousandth x = inl CannotConvertInfinity) /\
    (forall y, ceil_to_thousandth x = inr y ->
               is_finite x = true /\ is_nan y = false).
Proof.
  intros x. unfold ceil_to_thousandth. rewrite thousand_finite.
  split; [| split].
  - split.
    + intros H. destruct (is_nan x) eqn:Hx; [reflexivity | exfalso].
      pose proof (mul_finite_not_nan x false 8796093022208000 (-43) Hx) as Hp.
      destruct (x * S754_finite false 8796093022208000 (-43))%f64
        as [s | s | | s m e]; simpl in *; try discriminate.
      unfold PyFloat.float_of_int in H.
      match type of H with
      | context [is_finite ?z] => destruct (is_finite z)
      end; discriminate.
    + intros H. rewrite (is_nan_eq _ H). reflexivity.
  - destruct x as [[] | [] | | s m e]; simpl; intros; try discriminate;
      reflexivity.
  - intros y H. split.
    + destruct x as [[] | [] | | s m e]; try reflexivity; simpl in H;
        discriminate.
    + destruct (PyMath.ceil (x * S754_finite false 8796093022208000 (-43))%f64)
        as [e | k]; [discriminate |].
      unfold PyFloat.float_of_int in H.
      destruct (is_finite (of_Z k)); [| discriminate].
      injection H as <-. apply div_not_nan.
      apply binary_normalize_not_nan.
Qed.

Lemma ceil_to_thousandth_failures_witness :
  is_finite lit_7_0001 = true /\ is_nan lit_7_001 = false.
Proof.
  apply (proj2 (proj2 (ceil_to_thousandth_failures lit_7_0001)) lit_7_001).
  vm_compute. reflexivity.
Defined.

(** ** Which values the warning lists *)

Lemma leb_rank (x y : float) :
  (x <=? y)%f64 = true <->
  match rank x, rank y with
  | Some p, Some q => lex_lt p q \/ p = q
  | _, _ => False
  end.
Proof.
  unfold leb, SFleb.
  rank_cases x y; split; intros Hle; try reflexivity; try discriminate;
    try contradiction; try (left; lia); try (right; repeat f_equal; lia);
    try (destruct Hle as [Hle | Hle]; [lia | injection Hle; intros; lia]).
Qed.

Lemma rank_some (x : float) :
  is_nan x = false -> exists a b c, rank x = Some (a, b, c).
Proof.
  destruct x as [[] | [] | | [] m e]; simpl; intros; try discriminate;
    do 3 eexists; reflexivity.
Qed.

Lemma leb_false_iff (x y : float) :
  is_nan x = false -> is_nan y = false ->
  ((x <=? y)%f64 = false <-> (y <? x)%f64 = true).
Proof.
  intros Hx Hy. rewrite <- not_true_iff_false, leb_rank, ltb_rank.
  destruct (rank_some x Hx) as (a & b & c & ->).
  destruct (rank_some y Hy) as (a' & b' & c' & ->).
  cbn [lex_lt]. rewrite !pair_equal_spec. split; intros H; lia.
Qed.

(** The warning lists, in the order of the input and with repetitions,
    exactly the values that are below 0.001, above 14.0 or NaN. *)
Theorem warning_lists_low_high_and_nan :
  forall (values : list float) (c : console),
    (forall v, in_range v = false <->
               (v <? RANGE_LOW)%f64 = true \/ (RANGE_HIGH <? v)%f64 = true \/
               is_nan v = true) /\
    warn_out_of_range values c =
    (Return tt,
     Console (stdout c)
             (stderr c ++
              match filter (fun v => (v <? RANGE_LOW) || (RANGE_HIGH <? v)
                                     || is_nan v)%f64 values with
              | [] => []
              | bad => [Line warning_template [FFloats bad]]
              end)).
Proof.
  intros values c.
  assert (forall v, negb (in_range v) =
                    ((v <? RANGE_LOW) || (RANGE_HIGH <? v) || is_nan v)%f64)
    as Heq.
  { intros v. unfold in_range. destruct (is_nan v) eqn:Hv.
    - rewrite (is_nan_eq _ Hv). reflexivity.
    - rewrite orb_false_r, negb_andb.
      assert (forall a b : bool, (a = false <-> b = true) -> negb a = b) as Hb
          by (intros [] [] [? ?]; auto; symmetry; auto).
      f_equal; apply Hb, leb_false_iff; auto. }
  split.
  - intros v. rewrite <- negb_true_iff, Heq, !orb_true_iff. tauto.
  - rewrite warn_out_of_range_runs.
    rewrite (filter_ext _ _ Heq). reflexivity.
Qed.

(** ** Everything lines 51 to 77 can do *)

Lemma parse_values_outcomes (json_loads : string -> result (list json))
      (argv : list string) (c : console) :
  (exists values, parse_values json_loads argv c = (Return values, c)) \/
  (exists e,
      parse_values json_loads argv c =
      (Exit 1, Console (stdout c)
                       (stderr c ++
                        [Line (if json_form argv then json_error_template
                               else number_error_template) [FExn e]]))).
Proof.
  unfold parse_values, json_form.
  destruct (Nat.eqb (List.length argv) 1); cbn [andb];
    [destruct (Str.startswith (Str.strip (hd EmptyString argv)) "[" &&
               Str.endswith (Str.strip (hd EmptyString argv)) "]") |].
  - unfold parse_json.
    destruct (json_loads (Str.strip (hd EmptyString argv))) as [e | vals];
      [right; exists e; reflexivity |].
    destruct (PySeq.comprehension float_of_json vals) as [e | values];
      [right; exists e; reflexivity | left; exists values; reflexivity].
  - unfold parse_tokens.
    destruct (PySeq.comprehension PyFloat.float_of_str argv) as [e | values];
      [right; exists e; reflexivity | left; exists values; reflexivity].
  - unfold parse_tokens.
    destruct (PySeq.comprehension PyFloat.float_of_str argv) as [e | values];
      [right; exists e; reflexivity | left; exists values; reflexivity].
Qed.

(** Past the guard of [main], whatever the arguments and the decoder, a
    run ends in one of four ways: the JSON error, the number error, the
    "Need at least" exit after the range warning when fewer than three
    values were parsed, or the report on a triple of the three or more
    parsed values (a traceback instead when its ceiling cannot be taken).
    In particular [sum(best_comb)] and [a, b, c = best_comb] never
    raise. *)
Theorem process_outcomes :
  forall (json_loads : string -> result (list json))
         (summation : PySum.algorithm) (argv : list string),
    let o := run (process json_loads summation argv) in
    (exists e, json_form argv = true /\
               o = Outcome 1 [] [Line json_error_template [FExn e]]) \/
    (exists e, json_form argv = false /\
               o = Outcome 1 [] [Line number_error_template [FExn e]]) \/
    (exists values,
        List.length values < 3 /\
        o = Outcome 1 []
              (warning_lines values ++
               [Line too_few_template
                     [FInt 3; FInt (Z.of_nat (List.length values))]])) \/
    (exists values a b c,
        3 <= List.length values /\
        subseq [a; b; c] values /\
        best_comb summation values = Some [a; b; c] /\
        o = match ceil_to_thousandth
                    (PySum.sum summation [a; b; c] / of_Z 3)%f64 with
            | inr mean_ceiled =>
                Outcome 0
                  [Line triple_template [FFloat a; FFloat b; FFloat c];
                   Line mean_template
                        [FFloat (PySum.sum summation [a; b; c] / of_Z 3)%f64];
                   Line ceiled_template [FFloat mean_ceiled]]
                  (warning_lines values)
            | inl e => Outcome 1 [] (warning_lines values ++ [traceback e])
            end).
Proof.
  intros json_loads summation argv o. subst o.
  unfold run, process, checked_values, bind.
  destruct (parse_values_outcomes json_loads argv (Console [] []))
    as [[values ->] | [e ->]].
  - rewrite warn_out_of_range_runs, warning_lines_filter. cbn [stdout stderr app].
    destruct (Nat.ltb_spec (List.length values) K) as [Hlt | Hge].
    + right. right. left. exists values. split; [exact Hlt | reflexivity].
    + right. right. right.
      destruct (@best_comb_minimal summation values Hge)
        as (best & Hb & Hin & _).
      apply combinations_subseq in Hin. destruct Hin as [Hs Hl].
      destruct best as [| a [| b [| c [| ? ?]]]]; try discriminate.
      exists values, a, b, c.
      split; [exact Hge |]. split; [exact Hs |]. split; [exact Hb |].
      unfold ret. rewrite Hb.
      unfold report, bind, uncaught, ret, print.
      change K_float with (of_Z 3).
      destruct (ceil_to_thousandth (PySum.sum summation [a; b; c] / of_Z 3)%f64);
        reflexivity.
  - destruct (json_form argv).
    + left. exists e. split; reflexivity.
    + right. left. exists e. split; reflexivity.
Qed.
